(** * sphinx_immaterial.apidoc_formatting

    A shallow embedding of [src/sphinx_immaterial/apidoc_formatting.py]: the
    [HTMLTranslatorMixin] visit/depart hooks and the [setup] routine, with the
    host framework (docutils / Sphinx) taken as an interface.

    Conventions.
    - A Python [str] is a [string]; every [ascii] stands for one character,
      so [String.length] is Python's [len].
    - Objects of the document tree live in a store indexed by [node_id]; a
      Python reference is an [option node_id], [None] being Python's [None].
    - A method is a function from the state to either a raised exception or a
      result with the next state. *)

From stdpp Require Import base option list strings gmap.
From Stdlib Require Import Ascii ZArith Lia.

(** ** Python values found in docutils attribute dictionaries *)

Inductive value : Type :=
  | VBool (b : bool)
  | VInt (z : Z)
  | VStr (s : string)
  | VList (l : list string)
  | VTuple (l : list string).

(** Truth value of an object, as tested by [if] and [and]. *)
Definition truthy (v : value) : bool :=
  match v with
  | VBool b => b
  | VInt z => negb (Z.eqb z 0)
  | VStr s => negb (String.eqb s "")
  | VList l | VTuple l => match l with [] => false | _ => true end
  end.

(** [d.get(key)] yields [None] for a missing key, which is false. *)
Definition truthy_opt (o : option value) : bool :=
  match o with
  | Some v => truthy v
  | None => false
  end.

(** ** Exceptions *)

Inductive exn : Type :=
  | KeyError (key : string)
  | IndexError
  | ValueError
  | TypeError
  | AttributeError
  | HostError (msg : string).

Inductive res (A : Type) : Type :=
  | Ok (a : A)
  | Raise (e : exn).
Arguments Ok {A} a.
Arguments Raise {A} e.

(** ** Document tree *)

Definition node_id := nat.

(** The node classes the hooks are registered for or test with
    [isinstance]; any other docutils element class is [other_element].  A
    subclass of [container] or of [figure] counts as that class. *)
Inductive node_class : Type :=
  | container
  | figure
  | caption
  | compound
  | desc
  | desc_type
  | desc_signature
  | desc_parameterlist
  | desc_parameter
  | field_name
  | term
  | other_element (name : string).

Global Instance node_class_eq_dec : EqDecision node_class.
Proof. solve_decision. Defined.

(** An element has its class, its attribute dictionary, its parent and the
    text of its subtree, which is what [astext] gives in the reference host. *)
Record element : Type := Element {
  class_of : node_class;
  attributes : gmap string value;
  parent : option node_id;
  text : string
}.

(** ** Interpreter state

    [body] is [self.body]; [document] holds the node objects; the list
    [sphinx_addnodes_desc_signature_classes] is the class attribute
    [sphinx.addnodes.desc_signature.classes], a global of the host;
    [host] is whatever else the host translator keeps. *)

Record state (H : Type) : Type := State {
  body : list string;
  document : gmap node_id element;
  sphinx_addnodes_desc_signature_classes : list string;
  host : H
}.
Arguments State {H} _ _ _ _.
Arguments body {H} _.
Arguments document {H} _.
Arguments sphinx_addnodes_desc_signature_classes {H} _.
Arguments host {H} _.

Definition M (H A : Type) : Type := state H → res (A * state H).

Definition ret {H A} (a : A) : M H A := λ w, Ok (a, w).

Definition raise {H A} (e : exn) : M H A := λ _, Raise e.

Definition bind {H A B} (m : M H A) (k : A → M H B) : M H B :=
  λ w, match m w with
       | Ok (a, w') => k a w'
       | Raise e => Raise e
       end.

Declare Scope py_scope.
Delimit Scope py_scope with py.
Notation "'let*' x ':=' m 'in' k" := (bind m (λ x, k))
  (at level 10, x pattern, m at level 100, k at level 200) : py_scope.
Notation "m ';;' k" := (bind m (λ _, k))
  (at level 100, k at level 200, right associativity) : py_scope.
Local Open Scope py_scope.

(** ** String literals

    The double quote and the line feed, which the literals of the source
    contain, and a string between double quotes. *)

Definition dquote : string := String "034"%char EmptyString.
Definition newline : string := String "010"%char EmptyString.
Definition quoted (s : string) : string := dquote +:+ s +:+ dquote.

(** ** [str.replace]

    [replace_from old new skip s] scans [s] left to right; [skip] counts the
    characters of the current match that are still to be consumed. *)

Fixpoint replace_from (old new : string) (skip : nat) (s : string) : string :=
  match s with
  | EmptyString => EmptyString
  | String c s' =>
      match skip with
      | S k => replace_from old new k s'
      | O =>
          if String.prefix old s
          then new +:+ replace_from old new (String.length old - 1) s'
          else String c (replace_from old new 0 s')
      end
  end.

(** With an empty pattern Python inserts [new] around every character. *)
Fixpoint interleave (new s : string) : string :=
  match s with
  | EmptyString => new
  | String c s' => new +:+ String c (interleave new s')
  end.

Definition str_replace (s old new : string) : string :=
  match old with
  | EmptyString => interleave new s
  | _ => replace_from old new 0 s
  end.

(** ** Primitive operations of the hooks on the state *)

Section Primitives.
Context {H : Type}.

(** [self.body.append(x)] *)
Definition body_append (x : string) : M H unit :=
  λ w, Ok (tt, State (body w ++ [x]) (document w)
                     (sphinx_addnodes_desc_signature_classes w) (host w)).

(** [self.body[-1]] *)
Definition body_last : M H string :=
  λ w, match last (body w) with
       | Some x => Ok (x, w)
       | None => Raise IndexError
       end.

(** [self.body[-1] = x] *)
Definition body_set_last (x : string) : M H unit :=
  λ w, match body w with
       | [] => Raise IndexError
       | _ :: _ =>
           Ok (tt, State (<[pred (length (body w)) := x]> (body w))
                         (document w)
                         (sphinx_addnodes_desc_signature_classes w) (host w))
       end.

(** The object a reference designates, if any. *)
Definition deref (r : option node_id) (w : state H) : option element :=
  r ≫= λ n, document w !! n.

(** An element with its class list replaced, and a state with one node
    object replaced. *)
Definition set_classes (el : element) (l : list string) : element :=
  Element (class_of el) (<["classes" := VList l]> (attributes el))
          (parent el) (text el).

Definition update_node (node : node_id) (el : element) (w : state H)
  : state H :=
  State (body w) (<[node := el]> (document w))
        (sphinx_addnodes_desc_signature_classes w) (host w).

(** [node["classes"].append(c)]: subscripting raises [KeyError] for a
    missing attribute, and only a list has [append]. *)
Definition classes_append (node : node_id) (c : string) : M H unit :=
  λ w, match document w !! node with
       | None => Raise TypeError
       | Some el =>
           match attributes el !! "classes" with
           | None => Raise (KeyError "classes")
           | Some (VList l) =>
               Ok (tt, update_node node (set_classes el (l ++ [c])) w)
           | Some _ => Raise AttributeError
           end
       end.

(** [r.get(key)] *)
Definition node_get (r : option node_id) (key : string) : M H (option value) :=
  λ w, match deref r w with
       | None => Raise AttributeError
       | Some el => Ok (attributes el !! key, w)
       end.

(** [r.get(key, dflt)] *)
Definition node_get_default (r : option node_id) (key : string) (dflt : value)
  : M H value :=
  let* o := node_get r key in ret (default dflt o).

(** [key in node] *)
Definition node_contains (node : node_id) (key : string) : M H bool :=
  λ w, match document w !! node with
       | None => Raise TypeError
       | Some el => Ok (bool_decide (is_Some (attributes el !! key)), w)
       end.

(** [r.parent] *)
Definition node_parent (r : option node_id) : M H (option node_id) :=
  λ w, match deref r w with
       | None => Raise AttributeError
       | Some el => Ok (parent el, w)
       end.

(** [isinstance(r, cls)]; never raises, and is false of [None]. *)
Definition isinstance (r : option node_id) (cls : node_class) : M H bool :=
  λ w, Ok (match deref r w with
           | Some el => bool_decide (class_of el = cls)
           | None => false
           end, w).

(** [a, b = v]: unpacking a two-element iterable. *)
Definition unpack2 (v : value) : M H (string * string) :=
  match v with
  | VTuple [a; b] | VList [a; b] => ret (a, b)
  | VStr (String a (String b EmptyString)) =>
      ret (String a EmptyString, String b EmptyString)
  | VTuple _ | VList _ | VStr _ => raise ValueError
  | VBool _ | VInt _ => raise TypeError
  end.
End Primitives.

(** ** The host translator

    [HTMLTranslatorMixinBase] is [sphinx.writers.html5.HTML5Translator]: the
    methods reached through [super()] and through [self], the node method
    [astext] and the translation function [sphinx.locale._].  None of them is
    defined in this module, so the hooks are written against this interface. *)

Class HTML5Translator (H : Type) : Type := {
  super_visit_desc : node_id → M H unit;
  super_visit_desc_signature : node_id → M H unit;
  super_visit_desc_parameterlist : node_id → M H unit;
  super_depart_desc_parameterlist : node_id → M H unit;
  super_visit_desc_parameter : node_id → M H unit;
  super_depart_desc_parameter : node_id → M H unit;
  super_depart_field_name : node_id → M H unit;
  super_depart_term : node_id → M H unit;
  super_visit_caption : node_id → M H unit;
  super_depart_caption : node_id → M H unit;
  (** [self.starttag(node, tagname, suffix, **attributes)]; [suffix] is
      [None] where the caller leaves the host's default. *)
  starttag : node_id → string → option string → list (string * string)
             → M H string;
  add_permalink_ref : option node_id → string → M H unit;
  add_fignumber : option node_id → M H unit;
  astext : node_id → M H string;
  gettext : string → string
}.

Definition SIGNATURE_WRAP_LENGTH : nat := 70.

(** ** HTMLTranslatorMixin *)

Section HTMLTranslatorMixin.
Context {H : Type} `{!HTML5Translator H}.

Definition visit_desc (node : node_id) : M H unit :=
  classes_append node "objdesc" ;;
  super_visit_desc node.

Definition visit_desc_type (node : node_id) : M H unit :=
  let* tag := starttag node "span" (Some "") [("CLASS", "desctype")] in
  body_append tag.

Definition depart_desc_type (node : node_id) : M H unit :=
  body_append "</span>".

Definition visit_desc_signature (node : node_id) : M H unit :=
  let* node_text := astext node in
  classes_append node "highlight" ;;
  (if bool_decide (SIGNATURE_WRAP_LENGTH < String.length node_text)
   then classes_append node "sig-wrap"
   else ret tt) ;;
  super_visit_desc_signature node.

Definition visit_desc_parameterlist (node : node_id) : M H unit :=
  super_visit_desc_parameterlist node ;;
  let* parens := node_get_default (Some node) "parens" (VTuple ["("; ")"]) in
  let* (open_paren, _) := unpack2 parens in
  let* entry := body_last in
  body_set_last (str_replace entry "(" open_paren).

Definition depart_desc_parameterlist (node : node_id) : M H unit :=
  super_depart_desc_parameterlist node ;;
  let* parens := node_get_default (Some node) "parens" (VTuple ["("; ")"]) in
  let* (_, close_paren) := unpack2 parens in
  let* entry := body_last in
  body_set_last (str_replace entry ")" close_paren).

Definition visit_desc_parameter (node : node_id) : M H unit :=
  body_append ("<span class=" +:+ quoted "sig-param-decl" +:+ ">") ;;
  super_visit_desc_parameter node.

Definition depart_desc_parameter (node : node_id) : M H unit :=
  super_depart_desc_parameter node ;;
  body_append "</span>".

Definition depart_field_name (node : node_id) : M H unit :=
  add_permalink_ref (Some node) (gettext "Permalink to this headline") ;;
  super_depart_field_name node.

Definition depart_term (node : node_id) : M H unit :=
  let* has_ids := node_contains node "ids" in
  (if has_ids : bool
   then add_permalink_ref (Some node) (gettext "Permalink to this definition")
   else ret tt) ;;
  super_depart_term node.

(** [isinstance(node.parent, docutils.nodes.container) and
    node.parent.get("literal_block")], with the short circuit of [and]. *)
Definition parent_is_literal_block (node : node_id) : M H bool :=
  let* p := node_parent (Some node) in
  let* is_container := isinstance p container in
  if is_container : bool
  then let* lb := node_get p "literal_block" in ret (truthy_opt lb)
  else ret false.

(** The first statement of [visit_caption]: the [if]/[else] that opens
    the caption and settles the [class] entry of [attributes]. *)
Definition caption_open (node : node_id) : M H string :=
  let* literal := parent_is_literal_block node in
  if literal : bool
  then body_append ("<div class=" +:+ quoted "code-block-caption highlight"
                      +:+ ">") ;;
       ret ("caption-text" +:+ " filename")
  else super_visit_caption node ;;
       ret "caption-text".

Definition visit_caption (node : node_id) : M H unit :=
  let* cls := caption_open node in
  let* p := node_parent (Some node) in
  add_fignumber p ;;
  let* tag := starttag node "span" None [("class", cls)] in
  body_append tag.

(** The three [if] statements of [depart_caption], in order. *)
Definition caption_close_span (node : node_id) : M H unit :=
  let* p := node_parent (Some node) in
  let* is_container := isinstance p container in
  let* close_now :=
    (if is_container : bool
     then ret false
     else let* lb := node_get p "literal_block" in
          ret (negb (truthy_opt lb))) in
  if close_now : bool then body_append "</span>" else ret tt.

Definition caption_permalink (node : node_id) : M H unit :=
  let* literal := parent_is_literal_block node in
  if literal : bool
  then let* p := node_parent (Some node) in
       add_permalink_ref p (gettext "Permalink to this code") ;;
       body_append "</span>"
  else let* p := node_parent (Some node) in
       let* is_figure := isinstance p figure in
       if is_figure : bool
       then add_permalink_ref p (gettext "Permalink to this image")
       else let* toc := node_get p "toctree" in
            if truthy_opt toc
            then let* pp := node_parent p in
                 add_permalink_ref pp (gettext "Permalink to this toctree")
            else ret tt.

Definition caption_close (node : node_id) : M H unit :=
  let* literal := parent_is_literal_block node in
  if literal : bool
  then body_append ("</div>" +:+ newline)
  else super_depart_caption node.

Definition depart_caption (node : node_id) : M H unit :=
  caption_close_span node ;;
  caption_permalink node ;;
  caption_close node.
End HTMLTranslatorMixin.

(** ** setup *)

Definition setup {H App : Type} (app : App)
  : state H → gmap string value * state H :=
  λ w,
    ({[ "parallel_read_safe" := VBool true;
        "parallel_write_safe" := VBool true ]},
     State (body w) (document w)
           (sphinx_addnodes_desc_signature_classes w ++ ["highlight"])
           (host w)).

(** The state after [n] successive calls of [setup]. *)
Fixpoint setup_times {H App : Type} (n : nat) (app : App) (w : state H)
  : state H :=
  match n with
  | O => w
  | S k => snd (setup app (setup_times k app w))
  end.

(** ** A reference host

    The behaviour of [sphinx.writers.html5.HTML5Translator] under Sphinx's
    default configuration, reduced to what the hooks reach: every method
    appends its markup to the body; figure numbering is off; a permalink is
    emitted for a node that has an id.  It serves to run the hooks on
    concrete documents. *)

Module Sphinx.
Definition join_classes (l : list string) : string :=
  match l with
  | [] => ""
  | c :: cs => fold_left (λ acc x, acc +:+ " " +:+ x) cs c
  end.

Definition classes_of_node (node : node_id) (w : state unit) : list string :=
  match deref (Some node) w with
  | Some el =>
      match attributes el !! "classes" with
      | Some (VList l) => l
      | _ => []
      end
  | None => []
  end.

(** Keyword names are lowercased by [starttag]. *)
Fixpoint class_keyword (atts : list (string * string)) : list string :=
  match atts with
  | [] => []
  | (k, v) :: rest =>
      if bool_decide (k = "class" ∨ k = "CLASS") then [v]
      else class_keyword rest
  end.

Definition sphinx_starttag (node : node_id) (tagname : string)
  (suffix : option string) (atts : list (string * string))
  : M unit string :=
  λ w,
    let classes := classes_of_node node w ++ class_keyword atts in
    let class_att :=
      match classes with
      | [] => ""
      | _ => " class=" +:+ quoted (join_classes classes)
      end in
    Ok ("<" +:+ tagname +:+ class_att +:+ ">" +:+ default newline suffix, w).

Definition sphinx_add_permalink_ref (r : option node_id) (title : string)
  : M unit unit :=
  λ w, match deref r w with
       | None => Raise TypeError
       | Some el =>
           match attributes el !! "ids" with
           | None => Raise (KeyError "ids")
           | Some (VList (i :: _)) =>
               body_append ("<a class=" +:+ quoted "headerlink"
                            +:+ " href=" +:+ quoted ("#" +:+ i)
                            +:+ " title=" +:+ quoted title
                            +:+ ">" +:+ String "182"%char "</a>") w
           | Some _ => Ok (tt, w)
           end
       end.

Definition sphinx_add_fignumber (r : option node_id) : M unit unit := ret tt.

Definition sphinx_astext (node : node_id) : M unit string :=
  λ w, match deref (Some node) w with
       | Some el => Ok (text el, w)
       | None => Raise AttributeError
       end.

Definition append_starttag (tagname : string) (node : node_id)
  : M unit unit :=
  (let* tag := sphinx_starttag node tagname None [] in body_append tag)%py.

Definition sig_paren (p : string) : string :=
  "<span class=" +:+ quoted "sig-paren" +:+ ">" +:+ p +:+ "</span>".

Definition sphinx_visit_caption (node : node_id) : M unit unit :=
  (let* literal := parent_is_literal_block node in
   (if literal : bool
    then body_append ("<div class=" +:+ quoted "code-block-caption" +:+ ">")
    else let* tag := sphinx_starttag node "p" (Some "")
                       [("CLASS", "caption")] in
         body_append tag) ;;
   let* p := node_parent (Some node) in
   sphinx_add_fignumber p ;;
   let* tag := sphinx_starttag node "span" (Some "")
                 [("CLASS", "caption-text")] in
   body_append tag)%py.

Definition sphinx_depart_caption (node : node_id) : M unit unit :=
  (body_append "</span>" ;;
   let* literal := parent_is_literal_block node in
   let* p := node_parent (Some node) in
   (if literal : bool
    then sphinx_add_permalink_ref p "Permalink to this code"
    else let* is_figure := isinstance p figure in
         if is_figure : bool
         then sphinx_add_permalink_ref p "Permalink to this image"
         else let* toc := node_get p "toctree" in
              if truthy_opt toc
              then let* pp := node_parent p in
                   sphinx_add_permalink_ref pp "Permalink to this toctree"
              else ret tt) ;;
   if literal : bool
   then body_append ("</div>" +:+ newline)
   else body_append ("</p>" +:+ newline))%py.

#[global] Instance html5 : HTML5Translator unit := {|
  super_visit_desc := append_starttag "dl";
  super_visit_desc_signature := append_starttag "dt";
  super_visit_desc_parameterlist := λ _, body_append (sig_paren "(");
  super_depart_desc_parameterlist := λ _, body_append (sig_paren ")");
  super_visit_desc_parameter :=
    λ _, body_append ("<em class=" +:+ quoted "sig-param" +:+ ">");
  super_depart_desc_parameter := λ _, body_append "</em>";
  super_depart_field_name := λ _, body_append ("</dt>" +:+ newline);
  super_depart_term := λ _, body_append "</dt>";
  super_visit_caption := sphinx_visit_caption;
  super_depart_caption := sphinx_depart_caption;
  starttag := sphinx_starttag;
  add_permalink_ref := sphinx_add_permalink_ref;
  add_fignumber := sphinx_add_fignumber;
  astext := sphinx_astext;
  gettext := λ s, s
|}.
End Sphinx.

(** ** Auxiliary functions of the statements *)

(** [s[n:]] *)
Fixpoint str_drop (n : nat) (s : string) : string :=
  match n, s with
  | O, _ => s
  | S _, EmptyString => EmptyString
  | S k, String _ s' => str_drop k s'
  end.

(** Whether a reference designates a container that carries a true
    [literal_block] attribute. *)
Definition is_literal_block {H} (r : option node_id) (w : state H) : bool :=
  match deref r w with
  | Some el =>
      bool_decide (class_of el = container)
      && truthy_opt (attributes el !! "literal_block")
  | None => false
  end.

(** ** Concrete documents

    Small documents, rendered with the reference host, on which the hooks
    are run. *)

Module Examples.
Import Sphinx.

(** The attributes every docutils element starts with. *)
Definition basic_attributes : gmap string value :=
  {[ "ids" := VList []; "classes" := VList [];
     "names" := VList []; "dupnames" := VList [] ]}.

Definition make_state (b : list string) (d : gmap node_id element)
  : state unit :=
  State b d ["sig"; "sig-object"] tt.

Definition make_state_globals (b : list string) (d : gmap node_id element)
    (g : list string) : state unit :=
  State b d g tt.

(** An object description of a Python function. *)
Definition desc_node : element :=
  Element desc (<["classes" := VList ["py"; "function"]]> basic_attributes)
          None "".

Definition desc_state : state unit := make_state [] {[ 0 := desc_node ]}.

(** [desc_state] once [objdesc] is in the class list of the node, and once
    a closing [span] is in the body. *)
Definition desc_state_objdesc : state unit :=
  update_node 0 (set_classes desc_node ["py"; "function"; "objdesc"])
    desc_state.

Definition desc_state_closed : state unit :=
  make_state ["</span>"] (document desc_state).

(** Two signatures, of 70 and of 71 characters. *)
Definition text70 : string :=
  "visit_desc_parameterlist(self, nod: sphinx.addnodes.desc_parameterlist".
Definition text71 : string :=
  "visit_desc_parameterlist(self, node: sphinx.addnodes.desc_parameterlist".

Definition signature_node (t : string) : element :=
  Element desc_signature
          (<["classes" := VList ["sig"; "sig-object"]]> basic_attributes)
          (Some 0) t.

Definition signature_state (t : string) : state unit :=
  make_state [] {[ 0 := desc_node; 1 := signature_node t ]}.

(** A parameter list with the default parentheses, and one between
    square brackets. *)
Definition parameterlist_node : element :=
  Element desc_parameterlist basic_attributes (Some 1) "".

Definition bracket_parameterlist_node : element :=
  Element desc_parameterlist
          (<["parens" := VTuple ["["; "]"]]> basic_attributes) (Some 1) "".

Definition parameterlist_state (el : element) : state unit :=
  make_state ["<dt>"; "f"]
             {[ 0 := desc_node; 1 := signature_node "f(x)"; 2 := el ]}.

Definition default_state : state unit :=
  parameterlist_state parameterlist_node.

Definition bracket_state : state unit :=
  parameterlist_state bracket_parameterlist_node.

(** The states above once the host has emitted its opening parenthesis,
    and the bracket one once the hook has rewritten it. *)
Definition default_state_opened : state unit :=
  make_state ["<dt>"; "f"; sig_paren "("] (document default_state).

Definition bracket_state_opened : state unit :=
  make_state ["<dt>"; "f"; sig_paren "("] (document bracket_state).

Definition bracket_state_rewritten : state unit :=
  make_state ["<dt>"; "f"; sig_paren "["] (document bracket_state).

(** A caption under a parent of the given class and attributes. *)
Definition caption_node : element :=
  Element caption basic_attributes (Some 0) "Listing".

Definition caption_state (cls : node_class) (atts : gmap string value)
  : state unit :=
  make_state [] {[ 0 := Element cls atts None ""; 1 := caption_node ]}.

Definition literal_block_attributes : gmap string value :=
  <["literal_block" := VBool true]> basic_attributes.

(** A caption in a listing, and a caption in a container that is no
    listing. *)
Definition literal_block_caption_state : state unit :=
  caption_state container literal_block_attributes.

Definition plain_container_caption_state : state unit :=
  caption_state container basic_attributes.
End Examples.

(** ** Frame relations

    [extends w w']: from [w] to [w'] the body only grew at its end, every
    node kept its class, parent, text and attributes while its class list
    only grew at its end, and the host's global class list is the same. *)

Definition element_extends (el el' : element) : Prop :=
  class_of el' = class_of el
  ∧ parent el' = parent el
  ∧ text el' = text el
  ∧ (∀ k, k ≠ "classes" → attributes el' !! k = attributes el !! k)
  ∧ match attributes el !! "classes" with
    | Some (VList l) =>
        ∃ l', attributes el' !! "classes" = Some (VList (l ++ l'))
    | o => attributes el' !! "classes" = o
    end.

Definition extends {H} (w w' : state H) : Prop :=
  body w `prefix_of` body w'
  ∧ (∀ n el, document w !! n = Some el →
             ∃ el', document w' !! n = Some el' ∧ element_extends el el')
  ∧ sphinx_addnodes_desc_signature_classes w'
    = sphinx_addnodes_desc_signature_classes w.

Definition appends_only {H A} (m : M H A) : Prop :=
  ∀ w a w', m w = Ok (a, w') → extends w w'.

(** [rewrites_last w1 w']: [w'] is [w1] with the last body entry replaced
    by [x]. *)
Definition rewrites_last {H} (x : string) (w1 w' : state H) : Prop :=
  body w1 ≠ []
  ∧ body w' = <[pred (length (body w1)) := x]> (body w1)
  ∧ document w' = document w1
  ∧ sphinx_addnodes_desc_signature_classes w'
    = sphinx_addnodes_desc_signature_classes w1
  ∧ host w' = host w1.

(** The contract of a host whose methods only append. *)
Class HostAppendsOnly (H : Type) `{!HTML5Translator H} : Prop := {
  super_visit_desc_appends : ∀ n, appends_only (super_visit_desc n);
  super_visit_desc_signature_appends :
    ∀ n, appends_only (super_visit_desc_signature n);
  super_visit_desc_parameterlist_appends :
    ∀ n, appends_only (super_visit_desc_parameterlist n);
  super_depart_desc_parameterlist_appends :
    ∀ n, appends_only (super_depart_desc_parameterlist n);
  super_visit_desc_parameter_appends :
    ∀ n, appends_only (super_visit_desc_parameter n);
  super_depart_desc_parameter_appends :
    ∀ n, appends_only (super_depart_desc_parameter n);
  super_depart_field_name_appends :
    ∀ n, appends_only (super_depart_field_name n);
  super_depart_term_appends : ∀ n, appends_only (super_depart_term n);
  super_visit_caption_appends : ∀ n, appends_only (super_visit_caption n);
  super_depart_caption_appends : ∀ n, appends_only (super_depart_caption n);
  starttag_appends : ∀ n t s a, appends_only (starttag n t s a);
  add_permalink_ref_appends : ∀ r t, appends_only (add_permalink_ref r t);
  add_fignumber_appends : ∀ r, appends_only (add_fignumber r);
  astext_appends : ∀ n, appends_only (astext n)
}.

(** The hooks but the two of the parameter list, and those two with the
    host method each one starts with. *)
Definition appending_hooks {H} `{!HTML5Translator H} (node : node_id)
  : list (M H unit) :=
  [ visit_desc node; visit_desc_type node; depart_desc_type node;
    visit_desc_signature node; visit_desc_parameter node;
    depart_desc_parameter node; depart_field_name node; depart_term node;
    visit_caption node; depart_caption node ].

Definition parameterlist_hooks {H} `{!HTML5Translator H} (node : node_id)
  : list (M H unit * M H unit) :=
  [ (visit_desc_parameterlist node, super_visit_desc_parameterlist node);
    (depart_desc_parameterlist node, super_depart_desc_parameterlist node) ].

(** ** Counting span tags in a body *)

Definition span_opened (b : list string) : nat :=
  length (List.filter (String.prefix "<span") b).

Definition span_closed (b : list string) : nat :=
  length (List.filter (String.eqb "</span>") b).

(** ** Delegated calls

    [delegates hook w call w1]: the hook, started in state [w], reaches the
    host call [call] in state [w1].  One rule for each call of a host method
    in the source, in the order of the source; the premises are the
    statements the hook runs before the call. *)

Inductive delegates {H} `{!HTML5Translator H}
  : M H unit → state H → ∀ A : Type, M H A → state H → Prop :=
  | visit_desc_super node w w1 :
      classes_append node "objdesc" w = Ok (tt, w1) →
      delegates (visit_desc node) w unit (super_visit_desc node) w1
  | visit_desc_type_starttag node w :
      delegates (visit_desc_type node) w
        string (starttag node "span" (Some "") [("CLASS", "desctype")]) w
  | visit_desc_signature_astext node w :
      delegates (visit_desc_signature node) w string (astext node) w
  | visit_desc_signature_super node w node_text w0 w1 :
      astext node w = Ok (node_text, w0) →
      (classes_append node "highlight" ;;
       if bool_decide (SIGNATURE_WRAP_LENGTH < String.length node_text)
       then classes_append node "sig-wrap"
       else ret tt) w0 = Ok (tt, w1) →
      delegates (visit_desc_signature node) w
        unit (super_visit_desc_signature node) w1
  | visit_desc_parameterlist_super node w :
      delegates (visit_desc_parameterlist node) w
        unit (super_visit_desc_parameterlist node) w
  | depart_desc_parameterlist_super node w :
      delegates (depart_desc_parameterlist node) w
        unit (super_depart_desc_parameterlist node) w
  | visit_desc_parameter_super node w w1 :
      body_append ("<span class=" +:+ quoted "sig-param-decl" +:+ ">") w
      = Ok (tt, w1) →
      delegates (visit_desc_parameter node) w
        unit (super_visit_desc_parameter node) w1
  | depart_desc_parameter_super node w :
      delegates (depart_desc_parameter node) w
        unit (super_depart_desc_parameter node) w
  | depart_field_name_permalink node w :
      delegates (depart_field_name node) w
        unit (add_permalink_ref (Some node)
                (gettext "Permalink to this headline")) w
  | depart_field_name_super node w w1 :
      add_permalink_ref (Some node) (gettext "Permalink to this headline") w
      = Ok (tt, w1) →
      delegates (depart_field_name node) w
        unit (super_depart_field_name node) w1
  | depart_term_permalink node w w1 :
      node_contains node "ids" w = Ok (true, w1) →
      delegates (depart_term node) w
        unit (add_permalink_ref (Some node)
                (gettext "Permalink to this definition")) w1
  | depart_term_super node w has_ids w1 w2 :
      node_contains node "ids" w = Ok (has_ids, w1) →
      (if has_ids : bool
       then add_permalink_ref (Some node)
              (gettext "Permalink to this definition")
       else ret tt) w1 = Ok (tt, w2) →
      delegates (depart_term node) w unit (super_depart_term node) w2
  | visit_caption_super node w w1 :
      parent_is_literal_block node w = Ok (false, w1) →
      delegates (visit_caption node) w unit (super_visit_caption node) w1
  | visit_caption_fignumber node w cls w1 p w2 :
      caption_open node w = Ok (cls, w1) →
      node_parent (Some node) w1 = Ok (p, w2) →
      delegates (visit_caption node) w unit (add_fignumber p) w2
  | visit_caption_starttag node w cls w1 p w2 w3 :
      caption_open node w = Ok (cls, w1) →
      node_parent (Some node) w1 = Ok (p, w2) →
      add_fignumber p w2 = Ok (tt, w3) →
      delegates (visit_caption node) w
        string (starttag node "span" None [("class", cls)]) w3
  | depart_caption_permalink_code node w w1 w2 p w3 :
      caption_close_span node w = Ok (tt, w1) →
      parent_is_literal_block node w1 = Ok (true, w2) →
      node_parent (Some node) w2 = Ok (p, w3) →
      delegates (depart_caption node) w
        unit (add_permalink_ref p (gettext "Permalink to this code")) w3
  | depart_caption_permalink_image node w w1 w2 p w3 w4 :
      caption_close_span node w = Ok (tt, w1) →
      parent_is_literal_block node w1 = Ok (false, w2) →
      node_parent (Some node) w2 = Ok (p, w3) →
      isinstance p figure w3 = Ok (true, w4) →
      delegates (depart_caption node) w
        unit (add_permalink_ref p (gettext "Permalink to this image")) w4
  | depart_caption_permalink_toctree node w w1 w2 p w3 w4 toc w5 pp w6 :
      caption_close_span node w = Ok (tt, w1) →
      parent_is_literal_block node w1 = Ok (false, w2) →
      node_parent (Some node) w2 = Ok (p, w3) →
      isinstance p figure w3 = Ok (false, w4) →
      node_get p "toctree" w4 = Ok (toc, w5) →
      truthy_opt toc = true →
      node_parent p w5 = Ok (pp, w6) →
      delegates (depart_caption node) w
        unit (add_permalink_ref pp (gettext "Permalink to this toctree")) w6
  | depart_caption_super node w w1 w2 w3 :
      caption_close_span node w = Ok (tt, w1) →
      caption_permalink node w1 = Ok (tt, w2) →
      parent_is_literal_block node w2 = Ok (false, w3) →
      delegates (depart_caption node) w unit (super_depart_caption node) w3.

(** ** A host that fails

    The reference host with a [visit_desc] that raises, as the host does
    for a node it cannot render. *)

Definition failing_host : HTML5Translator unit := {|
  super_visit_desc := λ _, raise (HostError "unknown node");
  super_visit_desc_signature := @super_visit_desc_signature _ Sphinx.html5;
  super_visit_desc_parameterlist :=
    @super_visit_desc_parameterlist _ Sphinx.html5;
  super_depart_desc_parameterlist :=
    @super_depart_desc_parameterlist _ Sphinx.html5;
  super_visit_desc_parameter := @super_visit_desc_parameter _ Sphinx.html5;
  super_depart_desc_parameter := @super_depart_desc_parameter _ Sphinx.html5;
  super_depart_field_name := @super_depart_field_name _ Sphinx.html5;
  super_depart_term := @super_depart_term _ Sphinx.html5;
  super_visit_caption := @super_visit_caption _ Sphinx.html5;
  super_depart_caption := @super_depart_caption _ Sphinx.html5;
  starttag := @starttag _ Sphinx.html5;
  add_permalink_ref := @add_permalink_ref _ Sphinx.html5;
  add_fignumber := @add_fignumber _ Sphinx.html5;
  astext := @astext _ Sphinx.html5;
  gettext := @gettext _ Sphinx.html5
|}.

(** ** Further auxiliary functions

    [subst_char c new s]: [s] with every character [c] replaced by the
    string [new]; what [s.replace(c, new)] is for a one-character [c]. *)

Fixpoint subst_char (c : ascii) (new s : string) : string :=
  match s with
  | EmptyString => EmptyString
  | String a s' =>
      (if Ascii.eqb a c then new else String a EmptyString)
      +:+ subst_char c new s'
  end.

(** The characters of a string. *)
Definition chars (s : string) : list ascii := String.list_ascii_of_string s.

(** A state with another body. *)
Definition with_body {H} (b : list string) (w : state H) : state H :=
  State b (document w) (sphinx_addnodes_desc_signature_classes w) (host w).

(** All twelve hooks. *)
Definition all_hooks {H} `{!HTML5Translator H} (node : node_id)
  : list (M H unit) :=
  appending_hooks node ++ (parameterlist_hooks node).*1.

(** The exceptions the hooks' own operations raise. *)
Definition python_errors : list exn :=
  [KeyError "classes"; IndexError; ValueError; TypeError; AttributeError].

(** ** A host that lays the parameter list out on several lines

    The reference host for a parameter list marked
    [multi_line_parameter_list]: after the opening parenthesis
    [visit_desc_parameterlist] emits a blank line and the start tag of a
    definition list, which is then the last entry of the body. *)

Definition multiline_visit_desc_parameterlist (node : node_id) : M unit unit :=
  body_append (Sphinx.sig_paren "(") ;;
  body_append (newline +:+ newline) ;;
  Sphinx.append_starttag "dl" node.

Definition multiline_host : HTML5Translator unit := {|
  super_visit_desc := @super_visit_desc _ Sphinx.html5;
  super_visit_desc_signature := @super_visit_desc_signature _ Sphinx.html5;
  super_visit_desc_parameterlist := multiline_visit_desc_parameterlist;
  super_depart_desc_parameterlist :=
    @super_depart_desc_parameterlist _ Sphinx.html5;
  super_visit_desc_parameter := @super_visit_desc_parameter _ Sphinx.html5;
  super_depart_desc_parameter := @super_depart_desc_parameter _ Sphinx.html5;
  super_depart_field_name := @super_depart_field_name _ Sphinx.html5;
  super_depart_term := @super_depart_term _ Sphinx.html5;
  super_visit_caption := @super_visit_caption _ Sphinx.html5;
  super_depart_caption := @super_depart_caption _ Sphinx.html5;
  starttag := @starttag _ Sphinx.html5;
  add_permalink_ref := @add_permalink_ref _ Sphinx.html5;
  add_fignumber := @add_fignumber _ Sphinx.html5;
  astext := @astext _ Sphinx.html5;
  gettext := @gettext _ Sphinx.html5
|}.

Module MoreExamples.
Import Sphinx Examples.

(** [bracket_state] once the several-line host has opened the list. *)
Definition bracket_state_multiline : state unit :=
  make_state ["<dt>"; "f"; sig_paren "("; newline +:+ newline;
              "<dl>" +:+ newline]
             (document bracket_state).

(** [bracket_state] once the host has emitted its closing parenthesis, and
    once the hook has rewritten it. *)
Definition bracket_state_closed : state unit :=
  make_state ["<dt>"; "f"; sig_paren ")"] (document bracket_state).

Definition bracket_state_closed_rewritten : state unit :=
  make_state ["<dt>"; "f"; sig_paren "]"] (document bracket_state).

(** Parameter lists whose [parens] attribute is no pair. *)
Definition triple_parens_state : state unit :=
  parameterlist_state
    (Element desc_parameterlist
       (<["parens" := VTuple ["("; ","; ")"]]> basic_attributes) (Some 1) "").

Definition bool_parens_state : state unit :=
  parameterlist_state
    (Element desc_parameterlist
       (<["parens" := VBool true]> basic_attributes) (Some 1) "").
End MoreExamples.

(** The class list of a node, empty when the node has none. *)
Definition classes_of {H} (node : node_id) (w : state H) : list string :=
  match document w !! node with
  | Some el =>
      match attributes el !! "classes" with
      | Some (VList l) => l
      | _ => []
      end
  | None => []
  end.

Module TermExamples.
Import Sphinx Examples.

(** A term of a definition list: with the empty [ids] list every element
    starts with, and with the [ids] attribute deleted. *)
Definition term_node : element := Element term basic_attributes None "key".

Definition term_state : state unit := make_state ["key"] {[ 0 := term_node ]}.

Definition term_state_without_ids : state unit :=
  make_state ["key"]
    {[ 0 := Element term (delete "ids" basic_attributes) None "key" ]}.

(** An object description without a class list, and one whose class list
    is a tuple. *)
Definition desc_node_without_classes : element :=
  Element desc (delete "classes" basic_attributes) None "".

Definition desc_node_tuple_classes : element :=
  Element desc (<["classes" := VTuple ["py"]]> basic_attributes) None "".

Definition desc_state_without_classes : state unit :=
  make_state [] {[ 0 := desc_node_without_classes ]}.

Definition desc_state_tuple_classes : state unit :=
  make_state [] {[ 0 := desc_node_tuple_classes ]}.
End TermExamples.

Module CaptionExamples.
Import Sphinx Examples.

(** A figure with an id and its caption; a toctree wrapper (a compound
    with a true [toctree] attribute) inside a section with an id, and its
    caption; a caption without parent. *)
Definition figure_node : element :=
  Element figure (<["ids" := VList ["fig-1"]]> basic_attributes) None "".

Definition figure_caption_state : state unit :=
  make_state ["Figure"] {[ 0 := figure_node; 1 := caption_node ]}.

Definition section_node : element :=
  Element (other_element "section")
          (<["ids" := VList ["contents"]]> basic_attributes) None "".

Definition toctree_node : element :=
  Element compound (<["toctree" := VBool true]> basic_attributes) (Some 2) "".

Definition toctree_caption_state : state unit :=
  make_state ["Contents"]
    {[ 0 := toctree_node; 1 := caption_node; 2 := section_node ]}.

Definition orphan_caption_node : element :=
  Element caption basic_attributes None "Listing".

Definition orphan_caption_state : state unit :=
  make_state [] {[ 1 := orphan_caption_node ]}.

(** A field name whose [ids] attribute has been deleted, for which the
    reference host cannot build a permalink. *)
Definition field_state_without_ids : state unit :=
  make_state ["name"]
    {[ 0 := Element field_name (delete "ids" basic_attributes) None "name" ]}.

(** A figure with an id that carries a true [literal_block] attribute, and
    its caption. *)
Definition marked_figure_node : element :=
  Element figure
          (<["literal_block" := VBool true]>
             (<["ids" := VList ["fig-1"]]> basic_attributes))
          None "".

Definition marked_figure_caption_state : state unit :=
  make_state ["Figure"] {[ 0 := marked_figure_node; 1 := caption_node ]}.

(** A caption in a block quote that carries a true [literal_block]
    attribute without being a container. *)
Definition marked_quote_caption_state : state unit :=
  caption_state (other_element "block_quote") literal_block_attributes.
End CaptionExamples.

(** ** Hosts that leave the global class list alone

    [keeps_globals m]: a run of [m] that returns leaves the list
    [sphinx.addnodes.desc_signature.classes] as it found it; nothing is
    asked about the body, the document or the host's own state. *)

Definition keeps_globals {H A} (m : M H A) : Prop :=
  ∀ w a w', m w = Ok (a, w') →
            sphinx_addnodes_desc_signature_classes w'
            = sphinx_addnodes_desc_signature_classes w.

Class HostKeepsGlobals (H : Type) `{!HTML5Translator H} : Prop := {
  super_visit_desc_globals : ∀ n, keeps_globals (super_visit_desc n);
  super_visit_desc_signature_globals :
    ∀ n, keeps_globals (super_visit_desc_signature n);
  super_visit_desc_parameterlist_globals :
    ∀ n, keeps_globals (super_visit_desc_parameterlist n);
  super_depart_desc_parameterlist_globals :
    ∀ n, keeps_globals (super_depart_desc_parameterlist n);
  super_visit_desc_parameter_globals :
    ∀ n, keeps_globals (super_visit_desc_parameter n);
  super_depart_desc_parameter_globals :
    ∀ n, keeps_globals (super_depart_desc_parameter n);
  super_depart_field_name_globals :
    ∀ n, keeps_globals (super_depart_field_name n);
  super_depart_term_globals : ∀ n, keeps_globals (super_depart_term n);
  super_visit_caption_globals : ∀ n, keeps_globals (super_visit_caption n);
  super_depart_caption_globals : ∀ n, keeps_globals (super_depart_caption n);
  starttag_globals : ∀ n t s a, keeps_globals (starttag n t s a);
  add_permalink_ref_globals : ∀ r t, keeps_globals (add_permalink_ref r t);
  add_fignumber_globals : ∀ r, keeps_globals (add_fignumber r);
  astext_globals : ∀ n, keeps_globals (astext n)
}.

(** A host that keeps the global list but not the body: the reference host
    with a [visit_desc] that starts the body afresh. *)
Definition clearing_visit_desc (node : node_id) : M unit unit :=
  λ w, Ok (tt, State ["<dl>"] (document w)
                     (sphinx_addnodes_desc_signature_classes w) (host w)).

Definition clearing_host : HTML5Translator unit := {|
  super_visit_desc := clearing_visit_desc;
  super_visit_desc_signature := @super_visit_desc_signature _ Sphinx.html5;
  super_visit_desc_parameterlist :=
    @super_visit_desc_parameterlist _ Sphinx.html5;
  super_depart_desc_parameterlist :=
    @super_depart_desc_parameterlist _ Sphinx.html5;
  super_visit_desc_parameter := @super_visit_desc_parameter _ Sphinx.html5;
  super_depart_desc_parameter := @super_depart_desc_parameter _ Sphinx.html5;
  super_depart_field_name := @super_depart_field_name _ Sphinx.html5;
  super_depart_term := @super_depart_term _ Sphinx.html5;
  super_visit_caption := @super_visit_caption _ Sphinx.html5;
  super_depart_caption := @super_depart_caption _ Sphinx.html5;
  starttag := @starttag _ Sphinx.html5;
  add_permalink_ref := @add_permalink_ref _ Sphinx.html5;
  add_fignumber := @add_fignumber _ Sphinx.html5;
  astext := @astext _ Sphinx.html5;
  gettext := @gettext _ Sphinx.html5
|}.

(** ** The parentheses of a parameter list

    [parens_of el]: the pair that [open_paren, close_paren =
    node.get("parens", ("(", ")"))] binds for the node: the default pair
    without the attribute, the two components of a tuple or list of two, the
    two characters of a string of two, and nothing otherwise. *)


(** ** A host that emits nothing on entering a parameter list

    The reference host with a [visit_desc_parameterlist] that leaves the
    body as it is, as a translator does that renders the parentheses
    elsewhere; the hooks run on top of whatever class follows the mixin. *)

Definition quiet_host : HTML5Translator unit := {|
  super_visit_desc := @super_visit_desc _ Sphinx.html5;
  super_visit_desc_signature := @super_visit_desc_signature _ Sphinx.html5;
  super_visit_desc_parameterlist := λ _, ret tt;
  super_depart_desc_parameterlist :=
    @super_depart_desc_parameterlist _ Sphinx.html5;
  super_visit_desc_parameter := @super_visit_desc_parameter _ Sphinx.html5;
  super_depart_desc_parameter := @super_depart_desc_parameter _ Sphinx.html5;
  super_depart_field_name := @super_depart_field_name _ Sphinx.html5;
  super_depart_term := @super_depart_term _ Sphinx.html5;
  super_visit_caption := @super_visit_caption _ Sphinx.html5;
  super_depart_caption := @super_depart_caption _ Sphinx.html5;
  starttag := @starttag _ Sphinx.html5;
  add_permalink_ref := @add_permalink_ref _ Sphinx.html5;
  add_fignumber := @add_fignumber _ Sphinx.html5;
  astext := @astext _ Sphinx.html5;
  gettext := @gettext _ Sphinx.html5
|}.

Module OperatorExample.
Import Sphinx Examples.


End OperatorExample.

(** * Properties *)

(** ** The monad *)

Section MonadFacts.
Context {H : Type}.

Lemma bind_ok {A B} (m : M H A) (k : A → M H B) w a w' :
  m w = Ok (a, w') → bind m k w = k a w'.
Proof. unfold bind. by intros ->. Qed.

Lemma bind_raise {A B} (m : M H A) (k : A → M H B) w e :
  m w = Raise e → bind m k w = Raise e.
Proof. unfold bind. by intros ->. Qed.

Lemma bind_inv {A B} (m : M H A) (k : A → M H B) w b w' :
  bind m k w = Ok (b, w') →
  ∃ a w1, m w = Ok (a, w1) ∧ k a w1 = Ok (b, w').
Proof.
  unfold bind. destruct (m w) as [[a w1]|e]; [|done].
  intros Hk. by exists a, w1.
Qed.

Lemma bind_assoc {A B C} (m : M H A) (k : A → M H B) (k' : B → M H C) w :
  bind (bind m k) k' w = bind m (λ a, bind (k a) k') w.
Proof. unfold bind. by destruct (m w) as [[a w1]|e]. Qed.

Lemma state_eta (w : state H) :
  State (body w) (document w) (sphinx_addnodes_desc_signature_classes w)
        (host w) = w.
Proof. by destruct w. Qed.
End MonadFacts.

(** ** [str.replace] with the pattern itself is the identity *)

Lemma app_String (c : ascii) (s t : string) :
  String c s +:+ t = String c (s +:+ t).
Proof. reflexivity. Qed.

Lemma prefix_app_drop (old s : string) :
  String.prefix old s = true → old +:+ str_drop (String.length old) s = s.
Proof.
  revert s. induction old as [|a old IH]; intros s Hp.
  - by destruct s.
  - destruct s as [|c s]; simpl in Hp; [done|].
    destruct (ascii_dec a c) as [->|]; [|done].
    rewrite app_String. cbn [String.length str_drop]. f_equal. by apply IH.
Qed.

Lemma replace_from_same (old s : string) (k : nat) :
  old ≠ EmptyString → replace_from old old k s = str_drop k s.
Proof.
  intros Hne. revert k. induction s as [|c s IH]; intros k.
  - by destruct k.
  - destruct k as [|k]; [|apply IH].
    cbn [replace_from str_drop].
    destruct (String.prefix old (String c s)) eqn:Hp.
    + rewrite IH. destruct old as [|a old]; [done|].
      simpl in Hp. destruct (ascii_dec a c) as [->|]; [|done].
      cbn [String.length]. rewrite Nat.sub_1_r, app_String. cbn [pred].
      f_equal. by apply prefix_app_drop.
    + f_equal. apply IH.
Qed.

Lemma interleave_empty (s : string) : interleave EmptyString s = s.
Proof. induction s as [|c s IH]; cbn [interleave]; [done|]. by rewrite IH. Qed.

Lemma str_replace_same (s old : string) : str_replace s old old = s.
Proof.
  destruct old as [|a old].
  - apply interleave_empty.
  - unfold str_replace. by rewrite replace_from_same.
Qed.

(** ** The primitives on a document that holds the node *)

Section PrimitiveFacts.
Context {H : Type}.
Implicit Types (w : state H) (el : element) (node : node_id).

Lemma classes_append_ok node c w el l :
  document w !! node = Some el →
  attributes el !! "classes" = Some (VList l) →
  classes_append node c w
  = Ok (tt, update_node node (set_classes el (l ++ [c])) w).
Proof. unfold classes_append. by intros -> ->. Qed.

Lemma set_classes_lookup el l :
  attributes (set_classes el l) !! "classes" = Some (VList l).
Proof. apply lookup_insert_eq. Qed.

Lemma set_classes_twice el l1 l2 :
  set_classes (set_classes el l1) l2 = set_classes el l2.
Proof. unfold set_classes. simpl. by rewrite insert_insert_eq. Qed.

Lemma update_node_lookup node el w :
  document (update_node node el w) !! node = Some el.
Proof. apply lookup_insert_eq. Qed.

Lemma update_node_twice node el1 el2 w :
  update_node node el2 (update_node node el1 w) = update_node node el2 w.
Proof. unfold update_node. simpl. by rewrite insert_insert_eq. Qed.

Lemma node_parent_ok node w el :
  document w !! node = Some el →
  node_parent (Some node) w = Ok (parent el, w).
Proof. unfold node_parent. simpl. by intros ->. Qed.

Lemma parent_is_literal_block_ok node w el :
  document w !! node = Some el →
  parent_is_literal_block node w = Ok (is_literal_block (parent el) w, w).
Proof.
  intros Hn. unfold parent_is_literal_block.
  rewrite (bind_ok _ _ _ _ _ (node_parent_ok _ _ _ Hn)).
  unfold bind, isinstance, is_literal_block, node_get.
  destruct (deref (parent el) w) as [pel|] eqn:Hp; [|done].
  destruct (bool_decide (class_of pel = container)); [|done].
  simpl. by rewrite Hp.
Qed.

Lemma body_set_last_same w x :
  last (body w) = Some x → body_set_last x w = Ok (tt, w).
Proof.
  intros Hl. unfold body_set_last.
  destruct (body w) as [|y b] eqn:Hb; [done|].
  rewrite <- Hb in *. rewrite last_lookup in Hl.
  rewrite list_insert_id by done. by rewrite state_eta.
Qed.
End PrimitiveFacts.

(** ** setup *)

(** C7: for every application object, [setup] returns a declaration that
    holds exactly the two flags [parallel_read_safe] and
    [parallel_write_safe], both [True]. *)
Theorem setup_returns_parallel_flags {H App : Type} (app : App) (w : state H) :
  fst (setup app w)
  = {[ "parallel_read_safe" := VBool true;
       "parallel_write_safe" := VBool true ]}
  ∧ dom (fst (setup app w))
    = ({[ "parallel_read_safe"; "parallel_write_safe" ]} : gset string)
  ∧ size (fst (setup app w)) = 2
  ∧ ∀ k v, fst (setup app w) !! k = Some v → v = VBool true.
Proof.
  split; [done|]. split; [|split].
  - simpl. by rewrite dom_insert_L, dom_singleton_L.
  - simpl. rewrite map_size_insert_None; [by rewrite map_size_singleton|].
    by apply lookup_singleton_ne.
  - intros k v. simpl. intros Hk.
    apply lookup_insert_Some in Hk as [[_ <-]|[_ Hk]]; [done|].
    by apply lookup_singleton_Some in Hk as [_ <-].
Qed.

(** C8: each call to [setup] appends the single class [highlight] to
    [sphinx.addnodes.desc_signature.classes] and leaves the entries that
    list already had in place; [n] calls append it [n] times. *)
Theorem setup_appends_highlight {H App : Type} (app : App) (w : state H) :
  sphinx_addnodes_desc_signature_classes (snd (setup app w))
  = sphinx_addnodes_desc_signature_classes w ++ ["highlight"]
  ∧ (∀ i c, sphinx_addnodes_desc_signature_classes w !! i = Some c →
            sphinx_addnodes_desc_signature_classes (snd (setup app w)) !! i
            = Some c)
  ∧ length (sphinx_addnodes_desc_signature_classes (snd (setup app w)))
    = S (length (sphinx_addnodes_desc_signature_classes w))
  ∧ ∀ n, sphinx_addnodes_desc_signature_classes (setup_times n app w)
         = sphinx_addnodes_desc_signature_classes w ++ replicate n "highlight".
Proof.
  split_and!.
  - reflexivity.
  - intros i c Hi. simpl. by apply lookup_app_l_Some.
  - simpl. rewrite length_app. simpl. lia.
  - induction n as [|n IH]; simpl.
    + by rewrite app_nil_r.
    + rewrite IH, <- (assoc_L (++)). f_equal.
      clear IH. induction n as [|n IH]; [done|]. simpl. by rewrite IH.
Qed.

(** ** visit_desc *)

(** C5: on a desc node, [visit_desc] appends exactly the class [objdesc]
    to the node's class list and then runs the host's [visit_desc]; the
    node's other attributes, its class, parent and text, the other nodes
    and the body are as they were when the host takes over. *)
Theorem visit_desc_appends_objdesc {H} `{!HTML5Translator H}
    (node : node_id) (w : state H) (el : element) (l : list string) :
  document w !! node = Some el →
  attributes el !! "classes" = Some (VList l) →
  let el' := set_classes el (l ++ ["objdesc"]) in
  let w' := update_node node el' w in
  visit_desc node w = super_visit_desc node w'
  ∧ document w' !! node = Some el'
  ∧ attributes el' !! "classes" = Some (VList (l ++ ["objdesc"]))
  ∧ (∀ k, k ≠ "classes" → attributes el' !! k = attributes el !! k)
  ∧ class_of el' = class_of el ∧ parent el' = parent el ∧ text el' = text el
  ∧ (∀ m, m ≠ node → document w' !! m = document w !! m)
  ∧ body w' = body w
  ∧ sphinx_addnodes_desc_signature_classes w'
    = sphinx_addnodes_desc_signature_classes w
  ∧ host w' = host w.
Proof.
  intros Hn Hc el' w'. split.
  - unfold visit_desc.
    by rewrite (bind_ok _ _ _ _ _ (classes_append_ok _ "objdesc" _ _ _ Hn Hc)).
  - split; [apply update_node_lookup|]. split; [apply set_classes_lookup|].
    split; [|split_and!; try done].
    + intros k Hk. subst el'. simpl. by rewrite lookup_insert_ne.
    + intros m Hm. subst w'. simpl. by rewrite lookup_insert_ne.
Qed.

Lemma visit_desc_appends_objdesc_witness :
  document Examples.desc_state !! 0 = Some Examples.desc_node
  ∧ attributes Examples.desc_node !! "classes"
    = Some (VList ["py"; "function"])
  ∧ visit_desc 0 Examples.desc_state
    = super_visit_desc 0 Examples.desc_state_objdesc.
Proof.
  split; [reflexivity|]. split; [reflexivity|].
  apply (visit_desc_appends_objdesc 0 Examples.desc_state Examples.desc_node
           ["py"; "function"]); reflexivity.
Defined.

(** ** visit_desc_signature *)

(** C4: on a desc_signature node, [visit_desc_signature] appends the class
    [highlight] and, exactly when the node's text is longer than
    [SIGNATURE_WRAP_LENGTH] = 70 characters, the class [sig-wrap] after it,
    and then runs the host's [visit_desc_signature]; a text of exactly 70
    characters does not receive [sig-wrap].  In the state the host's method
    receives, the node's class list is the old one followed by the appended
    classes, and the node's other attributes, its class, parent and text,
    the other nodes, the body and the rest of the state are as [astext] left
    them. *)
Theorem visit_desc_signature_classes {H} `{!HTML5Translator H}
    (node : node_id) (w w1 : state H) (t : string) (el : element)
    (l : list string) :
  astext node w = Ok (t, w1) →
  document w1 !! node = Some el →
  attributes el !! "classes" = Some (VList l) →
  ∃ (added : list string) (w' : state H) (el' : element),
    visit_desc_signature node w = super_visit_desc_signature node w'
    ∧ w' = update_node node (set_classes el (l ++ added)) w1
    ∧ added = "highlight"
              :: (if bool_decide (70 < String.length t)
                  then ["sig-wrap"] else [])
    ∧ ("sig-wrap" ∈ added ↔ 70 < String.length t)
    ∧ (String.length t = 70 → added = ["highlight"])
    ∧ document w' !! node = Some el'
    ∧ attributes el' !! "classes" = Some (VList (l ++ added))
    ∧ (∀ k, k ≠ "classes" → attributes el' !! k = attributes el !! k)
    ∧ class_of el' = class_of el ∧ parent el' = parent el ∧ text el' = text el
    ∧ (∀ m, m ≠ node → document w' !! m = document w1 !! m)
    ∧ body w' = body w1
    ∧ sphinx_addnodes_desc_signature_classes w'
      = sphinx_addnodes_desc_signature_classes w1
    ∧ host w' = host w1.
Proof.
  intros Ht Hn Hc.
  set (added := "highlight"
                :: (if bool_decide (70 < String.length t)
                    then ["sig-wrap"] else [])).
  exists added, (update_node node (set_classes el (l ++ added)) w1),
         (set_classes el (l ++ added)).
  split; [|split; [done|split; [done|split; [|split]]]].
  - unfold visit_desc_signature.
    rewrite (bind_ok _ _ _ _ _ Ht).
    rewrite (bind_ok _ _ _ _ _ (classes_append_ok _ "highlight" _ _ _ Hn Hc)).
    unfold SIGNATURE_WRAP_LENGTH. subst added. case_bool_decide.
    + erewrite bind_ok; last first.
      { apply classes_append_ok;
          [apply update_node_lookup|apply set_classes_lookup]. }
      rewrite update_node_twice, set_classes_twice.
      by rewrite <- (assoc_L (++)).
    + done.
  - subst added. destruct (decide (70 < String.length t)) as [Hlt|Hge].
    + rewrite bool_decide_eq_true_2 by done. split; [done|].
      intros _. rewrite !elem_of_cons. tauto.
    + rewrite bool_decide_eq_false_2 by done. split; [|done].
      rewrite !elem_of_cons, elem_of_nil. intros [|[]]; done.
  - intros Hlen. subst added. rewrite bool_decide_eq_false_2; [done|lia].
  - split; [apply update_node_lookup|]. split; [apply set_classes_lookup|].
    split; [|split_and!; try done].
    + intros k Hk. simpl. by rewrite lookup_insert_ne.
    + intros m Hm. simpl. by rewrite lookup_insert_ne.
Qed.

Lemma visit_desc_signature_classes_witness :
  astext 1 (Examples.signature_state Examples.text71)
  = Ok (Examples.text71, Examples.signature_state Examples.text71)
  ∧ String.length Examples.text71 = 71
  ∧ ∃ added w' el',
      visit_desc_signature 1 (Examples.signature_state Examples.text71)
      = super_visit_desc_signature 1 w'
      ∧ added = ["highlight"; "sig-wrap"]
      ∧ document w' !! 1 = Some el'
      ∧ attributes el' !! "classes"
        = Some (VList ["sig"; "sig-object"; "highlight"; "sig-wrap"])
      ∧ body w' = [].
Proof.
  split; [reflexivity|]. split; [reflexivity|].
  destruct (visit_desc_signature_classes 1
              (Examples.signature_state Examples.text71)
              (Examples.signature_state Examples.text71)
              Examples.text71 (Examples.signature_node Examples.text71)
              ["sig"; "sig-object"])
    as (added & w' & el' & Hrun & _ & Hadded & _ & _ & Hn & Hc & _ & _ & _
        & _ & _ & Hb & _);
    [reflexivity..|].
  exists added, w', el'. split; [exact Hrun|].
  split; [rewrite Hadded; reflexivity|]. split; [exact Hn|].
  split; [rewrite Hc, Hadded; reflexivity|]. rewrite Hb. reflexivity.
Defined.

(** The two signatures rendered with the reference host. *)
Example signature_of_70_characters :
  ∃ w',
    visit_desc_signature 1 (Examples.signature_state Examples.text70)
    = Ok (tt, w')
    ∧ Sphinx.classes_of_node 1 w' = ["sig"; "sig-object"; "highlight"]
    ∧ body w' = ["<dt class=" +:+ quoted "sig sig-object highlight" +:+ ">"
                 +:+ newline].
Proof. eexists. split; [reflexivity|]. by vm_compute. Qed.

Example signature_of_71_characters :
  ∃ w',
    visit_desc_signature 1 (Examples.signature_state Examples.text71)
    = Ok (tt, w')
    ∧ Sphinx.classes_of_node 1 w'
      = ["sig"; "sig-object"; "highlight"; "sig-wrap"].
Proof. eexists. split; [reflexivity|]. by vm_compute. Qed.

(** ** visit_desc_parameterlist and depart_desc_parameterlist *)

(** C9: for a desc_parameterlist node without a [parens] attribute the
    substitution is the identity: once the host's method has emitted its
    entries, the hook leaves the last body entry, and the whole state, as the
    host left them. *)
Theorem parameterlist_default_parens_identity {H} `{!HTML5Translator H}
    (node : node_id) (w w1 : state H) (el : element) :
  document w1 !! node = Some el →
  attributes el !! "parens" = None →
  body w1 ≠ [] →
  (super_visit_desc_parameterlist node w = Ok (tt, w1) →
   visit_desc_parameterlist node w = Ok (tt, w1))
  ∧ (super_depart_desc_parameterlist node w = Ok (tt, w1) →
     depart_desc_parameterlist node w = Ok (tt, w1)).
Proof.
  intros Hn Hp Hb.
  assert (∃ x, last (body w1) = Some x) as [x Hx].
  { destruct (last (body w1)) eqn:Hl; [by eexists|].
    by apply last_None in Hl. }
  assert (node_get_default (H:=H) (Some node) "parens" (VTuple ["("; ")"]) w1
          = Ok (VTuple ["("; ")"], w1)) as Hget.
  { unfold node_get_default, bind, node_get. simpl. rewrite Hn.
    unfold ret. by rewrite Hp. }
  assert (body_last w1 = Ok (x, w1)) as Hlast.
  { unfold body_last. by rewrite Hx. }
  split; intros Hsuper.
  - unfold visit_desc_parameterlist.
    rewrite (bind_ok _ _ _ _ _ Hsuper), (bind_ok _ _ _ _ _ Hget).
    cbn [unpack2]. unfold bind at 1, ret at 1.
    rewrite (bind_ok _ _ _ _ _ Hlast), str_replace_same.
    by apply body_set_last_same.
  - unfold depart_desc_parameterlist.
    rewrite (bind_ok _ _ _ _ _ Hsuper), (bind_ok _ _ _ _ _ Hget).
    cbn [unpack2]. unfold bind at 1, ret at 1.
    rewrite (bind_ok _ _ _ _ _ Hlast), str_replace_same.
    by apply body_set_last_same.
Qed.

Lemma parameterlist_default_parens_identity_witness :
  super_visit_desc_parameterlist 2 Examples.default_state
  = Ok (tt, Examples.default_state_opened)
  ∧ attributes Examples.parameterlist_node !! "parens" = None
  ∧ visit_desc_parameterlist 2 Examples.default_state
    = Ok (tt, Examples.default_state_opened).
Proof.
  split; [reflexivity|]. split; [reflexivity|].
  apply (parameterlist_default_parens_identity 2 Examples.default_state
           Examples.default_state_opened Examples.parameterlist_node);
    [reflexivity|reflexivity|done|].
  reflexivity.
Defined.

(** ** visit_caption *)

Lemma visit_caption_literal_block {H} `{!HTML5Translator H}
    (node : node_id) (w : state H) (el : element) :
  document w !! node = Some el →
  is_literal_block (parent el) w = true →
  visit_caption node w
  = (body_append ("<div class=" +:+ quoted "code-block-caption highlight"
                    +:+ ">") ;;
     add_fignumber (parent el) ;;
     let* tag := starttag node "span" None
                   [("class", "caption-text filename")] in
     body_append tag) w.
Proof.
  intros Hn Hcase.
  pose proof (parent_is_literal_block_ok _ _ _ Hn) as Hlit.
  rewrite Hcase in Hlit. unfold visit_caption, caption_open.
  rewrite bind_assoc, (bind_ok _ _ _ _ _ Hlit). cbv beta iota.
  rewrite bind_assoc. unfold bind at 1 3. unfold body_append at 1 2.
  unfold bind at 1, ret at 1. unfold bind at 1.
  by erewrite node_parent_ok by (simpl; exact Hn).
Qed.

Lemma visit_caption_delegates {H} `{!HTML5Translator H}
    (node : node_id) (w : state H) (el : element) :
  document w !! node = Some el →
  is_literal_block (parent el) w = false →
  visit_caption node w
  = (super_visit_caption node ;;
     let* p := node_parent (Some node) in
     add_fignumber p ;;
     let* tag := starttag node "span" None [("class", "caption-text")] in
     body_append tag) w.
Proof.
  intros Hn Hcase.
  pose proof (parent_is_literal_block_ok _ _ _ Hn) as Hlit.
  rewrite Hcase in Hlit. unfold visit_caption, caption_open.
  rewrite bind_assoc, (bind_ok _ _ _ _ _ Hlit). cbv beta iota.
  rewrite bind_assoc. reflexivity.
Qed.

(** C6: for a caption whose parent is a container with a true
    [literal_block] attribute, [visit_caption] appends the tag
    [<div class="code-block-caption highlight">] to the body, has the host
    emit the figure number of the parent, and appends the [span] start tag
    the host builds for the class [caption-text filename]; for every other
    caption it runs the host's [visit_caption], has the host emit the figure
    number, and appends the [span] start tag the host builds for the class
    [caption-text].  In both cases the start tag is the last entry of the
    body the hook leaves. *)
Theorem visit_caption_markup {H} `{!HTML5Translator H}
    (node : node_id) (w : state H) (el : element) :
  document w !! node = Some el →
  (is_literal_block (parent el) w = true →
   ∀ w2 tag w3,
     add_fignumber (parent el)
       (State (body w ++ ["<div class="
                          +:+ quoted "code-block-caption highlight"
                          +:+ ">"])
              (document w) (sphinx_addnodes_desc_signature_classes w)
              (host w))
     = Ok (tt, w2) →
     starttag node "span" None [("class", "caption-text filename")] w2
     = Ok (tag, w3) →
     visit_caption node w
     = Ok (tt, State (body w3 ++ [tag]) (document w3)
                 (sphinx_addnodes_desc_signature_classes w3) (host w3))
     ∧ ∀ kf ks,
         body w2
         = body w
           ++ ["<div class=" +:+ quoted "code-block-caption highlight"
               +:+ ">"]
           ++ kf →
         body w3 = body w2 ++ ks →
         body w3 ++ [tag]
         = body w
           ++ ["<div class=" +:+ quoted "code-block-caption highlight"
               +:+ ">"]
           ++ kf ++ ks ++ [tag])
  ∧ (is_literal_block (parent el) w = false →
     ∀ w1 el1 w2 tag w3,
       super_visit_caption node w = Ok (tt, w1) →
       document w1 !! node = Some el1 →
       add_fignumber (parent el1) w1 = Ok (tt, w2) →
       starttag node "span" None [("class", "caption-text")] w2
       = Ok (tag, w3) →
       visit_caption node w
       = Ok (tt, State (body w3 ++ [tag]) (document w3)
                   (sphinx_addnodes_desc_signature_classes w3) (host w3))
       ∧ ∀ kf ks,
           body w2 = body w1 ++ kf →
           body w3 = body w2 ++ ks →
           body w3 ++ [tag] = body w1 ++ kf ++ ks ++ [tag]).
Proof.
  intros Hn. split; intros Hcase.
  - intros w2 tag w3 Hfig Htag. split.
    + rewrite (visit_caption_literal_block _ _ _ Hn Hcase).
      unfold bind at 1, body_append at 1.
      rewrite (bind_ok _ _ _ _ _ Hfig), (bind_ok _ _ _ _ _ Htag).
      reflexivity.
    + intros kf ks Hkf Hks. rewrite Hks, Hkf.
      by rewrite <- !(assoc_L (++)).
  - intros w1 el1 w2 tag w3 Hsuper Hn1 Hfig Htag. split.
    + rewrite (visit_caption_delegates _ _ _ Hn Hcase).
      rewrite (bind_ok _ _ _ _ _ Hsuper).
      rewrite (bind_ok _ _ _ _ _ (node_parent_ok _ _ _ Hn1)).
      rewrite (bind_ok _ _ _ _ _ Hfig), (bind_ok _ _ _ _ _ Htag).
      reflexivity.
    + intros kf ks Hkf Hks. rewrite Hks, Hkf.
      by rewrite <- !(assoc_L (++)).
Qed.

Lemma visit_caption_markup_witness :
  is_literal_block (Some 0) Examples.literal_block_caption_state = true
  ∧ visit_caption 1 Examples.literal_block_caption_state
    = Ok (tt, Examples.make_state
                ["<div class=" +:+ quoted "code-block-caption highlight"
                 +:+ ">";
                 "<span class=" +:+ quoted "caption-text filename" +:+ ">"
                 +:+ newline]
                (document Examples.literal_block_caption_state)).
Proof.
  split; [reflexivity|].
  destruct (visit_caption_markup 1 Examples.literal_block_caption_state
              Examples.caption_node) as [Hlisting _]; [reflexivity|].
  eapply (Hlisting eq_refl
           (Examples.make_state
              ["<div class=" +:+ quoted "code-block-caption highlight"
               +:+ ">"]
              (document Examples.literal_block_caption_state))
           ("<span class=" +:+ quoted "caption-text filename" +:+ ">"
            +:+ newline)
           (Examples.make_state
              ["<div class=" +:+ quoted "code-block-caption highlight"
               +:+ ">"]
              (document Examples.literal_block_caption_state)));
    reflexivity.
Defined.

(** ** Frame: what the hooks leave in place *)

Lemma element_extends_refl (el : element) : element_extends el el.
Proof.
  unfold element_extends. split_and!; try done.
  destruct (attributes el !! "classes") as [[]|]; try done.
  exists []. by rewrite app_nil_r.
Qed.

Lemma element_extends_trans (el1 el2 el3 : element) :
  element_extends el1 el2 → element_extends el2 el3 → element_extends el1 el3.
Proof.
  intros (Hc1 & Hp1 & Ht1 & Ha1 & Hl1) (Hc2 & Hp2 & Ht2 & Ha2 & Hl2).
  unfold element_extends. split_and!; try congruence.
  - intros k Hk. by rewrite Ha2, Ha1.
  - destruct (attributes el1 !! "classes") as [v|].
    + destruct v; try (by rewrite Hl1 in Hl2).
      destruct Hl1 as [l1 Hl1]. rewrite Hl1 in Hl2.
      destruct Hl2 as [l2 Hl2]. exists (l1 ++ l2).
      by rewrite (assoc_L (++)).
    + by rewrite Hl1 in Hl2.
Qed.

Lemma element_extends_set_classes (el : element) (l : list string) (c : string) :
  attributes el !! "classes" = Some (VList l) →
  element_extends el (set_classes el (l ++ [c])).
Proof.
  intros Hl. unfold element_extends. split_and!; try done.
  - intros k Hk. simpl. by rewrite lookup_insert_ne.
  - rewrite Hl. exists [c]. apply set_classes_lookup.
Qed.

Section FrameFacts.
Context {H : Type}.
Implicit Types (w : state H).

Lemma extends_refl w : extends w w.
Proof.
  split_and!; try done. intros n el Hn. exists el.
  split; [done|apply element_extends_refl].
Qed.

Lemma extends_trans w1 w2 w3 : extends w1 w2 → extends w2 w3 → extends w1 w3.
Proof.
  intros (Hb1 & Hd1 & Hg1) (Hb2 & Hd2 & Hg2). split_and!.
  - by etrans.
  - intros n el Hn. destruct (Hd1 _ _ Hn) as (el2 & Hn2 & He2).
    destruct (Hd2 _ _ Hn2) as (el3 & Hn3 & He3).
    exists el3. split; [done|by eapply element_extends_trans].
  - congruence.
Qed.

Lemma appends_only_ret {A} (a : A) : appends_only (ret (H:=H) a).
Proof. intros w a' w' Hrun. inversion Hrun; subst. apply extends_refl. Qed.

Lemma appends_only_raise {A} (e : exn) : appends_only (raise (H:=H) (A:=A) e).
Proof. by intros w a w'. Qed.

Lemma appends_only_bind {A B} (m : M H A) (k : A → M H B) :
  appends_only m → (∀ a, appends_only (k a)) → appends_only (bind m k).
Proof.
  intros Hm Hk w b w' Hrun.
  apply bind_inv in Hrun as (a & w1 & Hm1 & Hk1).
  eapply extends_trans; [by eapply Hm|by eapply Hk].
Qed.

Lemma appends_only_body_append (x : string) : appends_only (body_append (H:=H) x).
Proof.
  intros w a w' Hrun. inversion Hrun; subst; clear Hrun.
  split_and!; simpl; try done.
  - by apply prefix_app_r.
  - intros n el Hn. exists el. split; [done|apply element_extends_refl].
Qed.

Lemma appends_only_classes_append (node : node_id) (c : string) :
  appends_only (classes_append (H:=H) node c).
Proof.
  intros w a w'. unfold classes_append.
  destruct (document w !! node) as [el|] eqn:Hn; [|done].
  destruct (attributes el !! "classes") as [[]|] eqn:Hc; try done.
  intros Hrun. inversion Hrun; subst; clear Hrun.
  split_and!; simpl; try done.
  intros n el0 Hn0. destruct (decide (n = node)) as [->|Hne].
  - rewrite lookup_insert_eq. eexists. split; [done|].
    assert (el0 = el) as -> by congruence.
    by apply element_extends_set_classes.
  - rewrite lookup_insert_ne by done. exists el0.
    split; [done|apply element_extends_refl].
Qed.

Lemma appends_only_body_last : appends_only (body_last (H:=H)).
Proof.
  intros w a w'. unfold body_last.
  destruct (last (body w)); [|done]. intros Hrun. inversion Hrun; subst. apply extends_refl.
Qed.

Lemma appends_only_node_get r key : appends_only (node_get (H:=H) r key).
Proof.
  intros w a w'. unfold node_get.
  destruct (deref r w); [|done]. intros Hrun. inversion Hrun; subst. apply extends_refl.
Qed.

Lemma appends_only_node_contains node key :
  appends_only (node_contains (H:=H) node key).
Proof.
  intros w a w'. unfold node_contains.
  destruct (document w !! node); [|done]. intros Hrun. inversion Hrun; subst. apply extends_refl.
Qed.

Lemma appends_only_node_parent r : appends_only (node_parent (H:=H) r).
Proof.
  intros w a w'. unfold node_parent.
  destruct (deref r w); [|done]. intros Hrun. inversion Hrun; subst. apply extends_refl.
Qed.

Lemma appends_only_isinstance r cls : appends_only (isinstance (H:=H) r cls).
Proof. intros w a w' Hrun. inversion Hrun; subst. apply extends_refl. Qed.

Lemma appends_only_unpack2 v : appends_only (unpack2 (H:=H) v).
Proof.
  destruct v as [| |s|l|l]; simpl;
    try apply appends_only_raise.
  - destruct s as [|a [|b [|c s]]];
      first [apply appends_only_raise|apply appends_only_ret].
  - destruct l as [|a [|b [|c l]]];
      first [apply appends_only_raise|apply appends_only_ret].
  - destruct l as [|a [|b [|c l]]];
      first [apply appends_only_raise|apply appends_only_ret].
Qed.
End FrameFacts.

Create HintDb appends discriminated.

#[local] Hint Resolve appends_only_ret appends_only_raise appends_only_bind
  appends_only_body_append appends_only_classes_append appends_only_body_last
  appends_only_node_get appends_only_node_contains appends_only_node_parent
  appends_only_isinstance appends_only_unpack2 : appends.

#[local] Hint Extern 1 (appends_only (if ?b then _ else _)) =>
  destruct b : appends.

#[local] Hint Extern 1 (appends_only (match ?x with (_, _) => _ end)) =>
  destruct x : appends.

Section HostFacts.
Context {H : Type} `{!HTML5Translator H}.

Lemma appends_only_node_get_default r key dflt :
  appends_only (node_get_default (H:=H) r key dflt).
Proof. unfold node_get_default. auto with appends. Qed.

Lemma appends_only_parent_is_literal_block node :
  appends_only (parent_is_literal_block (H:=H) node).
Proof. unfold parent_is_literal_block. auto 10 with appends. Qed.
End HostFacts.

Section HookFrames.
Context {H : Type} `{!HTML5Translator H} `{!HostAppendsOnly H}.

#[local] Hint Resolve super_visit_desc_appends
  super_visit_desc_signature_appends super_visit_desc_parameterlist_appends
  super_depart_desc_parameterlist_appends super_visit_desc_parameter_appends
  super_depart_desc_parameter_appends super_depart_field_name_appends
  super_depart_term_appends super_visit_caption_appends
  super_depart_caption_appends starttag_appends add_permalink_ref_appends
  add_fignumber_appends astext_appends appends_only_node_get_default
  appends_only_parent_is_literal_block : appends.


Lemma body_set_last_rewrites (x : string) (w w' : state H) :
  body_set_last x w = Ok (tt, w') → rewrites_last x w w'.
Proof.
  unfold body_set_last, rewrites_last.
  destruct (body w) as [|y b] eqn:Hb; [done|].
  intros Hrun. inversion Hrun; subst; clear Hrun. simpl.
  by split_and!.
Qed.

Lemma parameterlist_hooks_rewrite (node : node_id) (hook super : M H unit)
    (w w' : state H) :
  (hook, super) ∈ parameterlist_hooks node →
  hook w = Ok (tt, w') →
  ∃ w1 old p,
    super w = Ok (tt, w1)
    ∧ last (body w1) = Some old
    ∧ (rewrites_last (str_replace old "(" p) w1 w'
       ∨ rewrites_last (str_replace old ")" p) w1 w').
Proof.
  unfold parameterlist_hooks. rewrite !elem_of_cons, elem_of_nil.
  intros Hin Hrun. destruct_or!; try done.
  all: inversion Hin; subst hook super; clear Hin.
  all: unfold visit_desc_parameterlist, depart_desc_parameterlist in Hrun.
  all: apply bind_inv in Hrun as ([] & w1 & Hsuper & Hrun).
  all: apply bind_inv in Hrun as (parens & w2 & Hget & Hrun).
  all: apply bind_inv in Hrun as ([p q] & w3 & Hun & Hrun).
  all: apply bind_inv in Hrun as (old & w4 & Hlast & Hrun).
  all: assert (w2 = w1) as ->
    by (unfold node_get_default, bind, node_get, ret in Hget;
        destruct (deref (Some node) w1); by inversion Hget).
  all: assert (w3 = w1) as ->.
  1, 3: destruct parens as [| |s|l|l]; try done;
        [destruct s as [|a [|b [|c s]]]|destruct l as [|a [|b [|c l]]]
        |destruct l as [|a [|b [|c l]]]]; by inversion Hun.
  all: unfold body_last in Hlast;
    destruct (last (body w1)) as [y|] eqn:Hl; [|done];
    inversion Hlast; subst; clear Hlast.
  - exists w4, old, p. split_and!; [done..|].
    left. by apply body_set_last_rewrites.
  - exists w4, old, q. split_and!; [done..|].
    right. by apply body_set_last_rewrites.
Qed.

Lemma rewrites_last_extends (x : string) (w w1 w' : state H) :
  extends w w1 → length (body w) < length (body w1) →
  rewrites_last x w1 w' → extends w w'.
Proof.
  intros ([k Hk] & Hd & Hg) Hlen (Hne & Hb & Hdoc & Hglob & _).
  split_and!.
  - rewrite Hb, Hk. rewrite Hk, length_app in Hlen.
    rewrite insert_app_r_alt by (rewrite length_app; lia).
    by eexists.
  - by rewrite Hdoc.
  - congruence.
Qed.
End HookFrames.

(** ** Errors of the host *)

(** C10: no hook handles errors: when a host call that a hook delegates to
    raises an error, the hook raises that same error. *)
Theorem hooks_propagate_host_errors {H} `{!HTML5Translator H}
    (hook : M H unit) (w w1 : state H) (A : Type) (call : M H A) (e : exn) :
  delegates hook w A call w1 →
  call w1 = Raise e →
  hook w = Raise e.
Proof.
  intros Hd He. destruct Hd.
  all: unfold visit_desc, visit_desc_type, visit_desc_signature,
         visit_desc_parameterlist, depart_desc_parameterlist,
         visit_desc_parameter, depart_desc_parameter, depart_field_name,
         depart_term, visit_caption, depart_caption.
  all: repeat first
         [ exact He
         | match goal with
           | Hok : ?m ?w = Ok _ |- bind ?m _ ?w = _ =>
               rewrite (bind_ok _ _ _ _ _ Hok)
           | Hok : ?m ?w = Ok _ |- ?m ?w = _ => rewrite Hok
           | Hr : ?m ?w = Raise _ |- bind ?m _ ?w = _ =>
               exact (bind_raise _ _ _ _ Hr)
           | Hok : bind _ _ _ = Ok _ |- _ =>
               apply bind_inv in Hok as (? & ? & ? & ?)
           | Ht : truthy_opt _ = true |- _ => rewrite Ht
           end
         | rewrite bind_assoc
         | progress cbv beta iota
         | progress unfold caption_open, caption_permalink, caption_close ].
Qed.

Lemma hooks_propagate_host_errors_witness :
  delegates (H:=unit) (HTML5Translator0:=failing_host)
    (@visit_desc _ failing_host 0) Examples.desc_state
    unit (@super_visit_desc _ failing_host 0) Examples.desc_state_objdesc
  ∧ @super_visit_desc _ failing_host 0 Examples.desc_state_objdesc
    = Raise (HostError "unknown node")
  ∧ @visit_desc _ failing_host 0 Examples.desc_state
    = Raise (HostError "unknown node").
Proof.
  assert (delegates (H:=unit) (HTML5Translator0:=failing_host)
            (@visit_desc _ failing_host 0) Examples.desc_state
            unit (@super_visit_desc _ failing_host 0)
            Examples.desc_state_objdesc) as Hd.
  { apply (@visit_desc_super unit failing_host). reflexivity. }
  split; [exact Hd|]. split; [reflexivity|].
  apply (@hooks_propagate_host_errors unit failing_host _ _
           Examples.desc_state_objdesc unit
           (@super_visit_desc _ failing_host 0) _ Hd).
  reflexivity.
Defined.

(** ** The reference host only appends *)

Lemma appends_only_sphinx_starttag node tagname suffix atts :
  appends_only (Sphinx.sphinx_starttag node tagname suffix atts).
Proof. intros w a w' Hrun. inversion Hrun; subst. apply extends_refl. Qed.

Lemma appends_only_sphinx_add_permalink_ref r title :
  appends_only (Sphinx.sphinx_add_permalink_ref r title).
Proof.
  intros w a w'. unfold Sphinx.sphinx_add_permalink_ref.
  destruct (deref r w) as [el|]; [|done].
  destruct (attributes el !! "ids") as [[| | |[|i l]|]|]; try done.
  all: try (intros Hrun; inversion Hrun; subst; apply extends_refl).
  apply appends_only_body_append.
Qed.

Lemma appends_only_sphinx_astext node :
  appends_only (Sphinx.sphinx_astext node).
Proof.
  intros w a w'. unfold Sphinx.sphinx_astext.
  destruct (deref (Some node) w); [|done].
  intros Hrun. inversion Hrun; subst. apply extends_refl.
Qed.

#[local] Hint Resolve appends_only_sphinx_starttag
  appends_only_sphinx_add_permalink_ref appends_only_sphinx_astext
  appends_only_parent_is_literal_block : appends.

#[global] Instance sphinx_appends_only : HostAppendsOnly unit.
Proof.
  split; intros; simpl;
    unfold Sphinx.append_starttag, Sphinx.sphinx_visit_caption,
      Sphinx.sphinx_depart_caption, Sphinx.sphinx_add_fignumber;
    auto 30 with appends.
Qed.

(** ** What the hooks do to the body and to the class lists *)

Section ParameterListInversion.
Context {H : Type} `{!HTML5Translator H}.
Implicit Types (w : state H) (el : element) (node : node_id).






End ParameterListInversion.



(** Seen from the state the host's method leaves: on a parameter list
    between square brackets the hook changes the text of the entry that
    method has emitted. *)
Lemma parameterlist_rewrites_body_entry :
  super_visit_desc_parameterlist 2 Examples.bracket_state
  = Ok (tt, Examples.bracket_state_opened)
  ∧ visit_desc_parameterlist 2 Examples.bracket_state
    = Ok (tt, Examples.bracket_state_rewritten)
  ∧ body Examples.bracket_state_opened !! 2 = Some (Sphinx.sig_paren "(")
  ∧ body Examples.bracket_state_rewritten !! 2 = Some (Sphinx.sig_paren "[")
  ∧ Sphinx.sig_paren "(" ≠ Sphinx.sig_paren "["
  ∧ ¬ body Examples.bracket_state_opened
      `prefix_of` body Examples.bracket_state_rewritten.
Proof.
  split_and!; try reflexivity.
  - by vm_compute.
  - intros [k Hk]. by vm_compute in Hk.
Qed.

Lemma quiet_host_appends_only : @HostAppendsOnly unit quiet_host.
Proof.
  split; intros; try apply sphinx_appends_only.
  apply appends_only_ret.
Qed.


(** ** Persistent state *)

Section GlobalsFacts.
Context {H : Type}.

Lemma keeps_globals_ret {A} (a : A) : keeps_globals (ret (H:=H) a).
Proof. intros w a' w' Hrun. by inversion Hrun. Qed.

Lemma keeps_globals_raise {A} (e : exn) :
  keeps_globals (raise (H:=H) (A:=A) e).
Proof. by intros w a w'. Qed.

Lemma keeps_globals_bind {A B} (m : M H A) (k : A → M H B) :
  keeps_globals m → (∀ a, keeps_globals (k a)) → keeps_globals (bind m k).
Proof.
  intros Hm Hk w b w' Hrun.
  apply bind_inv in Hrun as (a & w1 & Hm1 & Hk1).
  etrans; [by eapply Hk|by eapply Hm].
Qed.

Lemma keeps_globals_body_append (x : string) :
  keeps_globals (body_append (H:=H) x).
Proof. intros w a w' Hrun. by inversion Hrun. Qed.

Lemma keeps_globals_classes_append (node : node_id) (c : string) :
  keeps_globals (classes_append (H:=H) node c).
Proof.
  intros w a w'. unfold classes_append.
  destruct (document w !! node) as [el|]; [|done].
  destruct (attributes el !! "classes") as [[]|]; try done.
  intros Hrun. by inversion Hrun.
Qed.

Lemma keeps_globals_body_last : keeps_globals (body_last (H:=H)).
Proof.
  intros w a w'. unfold body_last.
  destruct (last (body w)); [|done]. intros Hrun. by inversion Hrun.
Qed.

Lemma keeps_globals_body_set_last (x : string) :
  keeps_globals (body_set_last (H:=H) x).
Proof.
  intros w a w'. unfold body_set_last.
  destruct (body w); [done|]. intros Hrun. by inversion Hrun.
Qed.

Lemma keeps_globals_node_get r key : keeps_globals (node_get (H:=H) r key).
Proof.
  intros w a w'. unfold node_get.
  destruct (deref r w); [|done]. intros Hrun. by inversion Hrun.
Qed.

Lemma keeps_globals_node_contains node key :
  keeps_globals (node_contains (H:=H) node key).
Proof.
  intros w a w'. unfold node_contains.
  destruct (document w !! node); [|done]. intros Hrun. by inversion Hrun.
Qed.

Lemma keeps_globals_node_parent r : keeps_globals (node_parent (H:=H) r).
Proof.
  intros w a w'. unfold node_parent.
  destruct (deref r w); [|done]. intros Hrun. by inversion Hrun.
Qed.

Lemma keeps_globals_isinstance r cls :
  keeps_globals (isinstance (H:=H) r cls).
Proof. intros w a w' Hrun. by inversion Hrun. Qed.

Lemma keeps_globals_unpack2 v : keeps_globals (unpack2 (H:=H) v).
Proof.
  destruct v as [| |s|l|l]; simpl;
    try apply keeps_globals_raise.
  - destruct s as [|a [|b [|c s]]];
      first [apply keeps_globals_raise|apply keeps_globals_ret].
  - destruct l as [|a [|b [|c l]]];
      first [apply keeps_globals_raise|apply keeps_globals_ret].
  - destruct l as [|a [|b [|c l]]];
      first [apply keeps_globals_raise|apply keeps_globals_ret].
Qed.

Lemma appends_only_keeps_globals {A} (m : M H A) :
  appends_only m → keeps_globals m.
Proof. intros Hm w a w' Hrun. by destruct (Hm _ _ _ Hrun) as (_ & _ & ?). Qed.
End GlobalsFacts.

Create HintDb globals discriminated.

#[local] Hint Resolve keeps_globals_ret keeps_globals_raise
  keeps_globals_bind keeps_globals_body_append keeps_globals_classes_append
  keeps_globals_body_last keeps_globals_body_set_last keeps_globals_node_get
  keeps_globals_node_contains keeps_globals_node_parent
  keeps_globals_isinstance keeps_globals_unpack2 : globals.

#[local] Hint Extern 1 (keeps_globals (if ?b then _ else _)) =>
  destruct b : globals.

#[local] Hint Extern 1 (keeps_globals (match ?x with (_, _) => _ end)) =>
  destruct x : globals.

Lemma hooks_keep_globals {H} `{!HTML5Translator H} `{!HostKeepsGlobals H}
    (node : node_id) (hook : M H unit) :
  hook ∈ appending_hooks node ++ (parameterlist_hooks node).*1 →
  keeps_globals hook.
Proof.
  pose proof super_visit_desc_globals. pose proof starttag_globals.
  pose proof super_visit_desc_signature_globals. pose proof astext_globals.
  pose proof super_visit_desc_parameterlist_globals.
  pose proof super_depart_desc_parameterlist_globals.
  pose proof super_visit_desc_parameter_globals.
  pose proof super_depart_desc_parameter_globals.
  pose proof super_depart_field_name_globals.
  pose proof super_depart_term_globals.
  pose proof super_visit_caption_globals.
  pose proof super_depart_caption_globals.
  pose proof add_permalink_ref_globals. pose proof add_fignumber_globals.
  unfold appending_hooks, parameterlist_hooks. simpl.
  rewrite !elem_of_cons, elem_of_nil.
  intros Hin. destruct_or! Hin; try done; subst hook.
  all: unfold visit_desc, visit_desc_type, depart_desc_type,
         visit_desc_signature, visit_desc_parameter, depart_desc_parameter,
         depart_field_name, depart_term, visit_caption, depart_caption,
         visit_desc_parameterlist, depart_desc_parameterlist,
         caption_open, caption_close_span, caption_permalink, caption_close,
         parent_is_literal_block, node_get_default.
  all: auto 40 with globals.
Qed.

#[global] Instance sphinx_keeps_globals : HostKeepsGlobals unit.
Proof.
  split; intros; apply appends_only_keeps_globals;
    apply sphinx_appends_only.
Qed.

Lemma clearing_host_keeps_globals : @HostKeepsGlobals unit clearing_host.
Proof.
  split; intros; try (apply appends_only_keeps_globals;
                      apply sphinx_appends_only).
  intros w a w' Hrun. by inversion Hrun.
Qed.

(** C2, as the code has it: [setup] leaves the body, the document and the
    translator's state as they are and changes the host's global state in
    one place, the list [sphinx.addnodes.desc_signature.classes], to which
    it appends [highlight]; given a host whose methods leave that list
    alone, whatever else they do, no hook changes it. *)
Theorem setup_mutates_only_global_class_list {H App} `{!HTML5Translator H}
    `{!HostKeepsGlobals H} (app : App) (node : node_id) (w w' : state H) :
  (body (snd (setup app w)) = body w
   ∧ document (snd (setup app w)) = document w
   ∧ host (snd (setup app w)) = host w
   ∧ sphinx_addnodes_desc_signature_classes (snd (setup app w))
     = sphinx_addnodes_desc_signature_classes w ++ ["highlight"])
  ∧ (∀ hook,
       hook ∈ appending_hooks node ++ (parameterlist_hooks node).*1 →
       hook w = Ok (tt, w') →
       sphinx_addnodes_desc_signature_classes w'
       = sphinx_addnodes_desc_signature_classes w).
Proof.
  split; [done|]. intros hook Hin Hrun.
  by eapply hooks_keep_globals.
Qed.

Lemma setup_mutates_only_global_class_list_witness :
  @visit_desc _ clearing_host 0 (snd (setup tt Examples.desc_state))
  = Ok (tt, Examples.make_state_globals ["<dl>"]
              (document Examples.desc_state_objdesc)
              ["sig"; "sig-object"; "highlight"])
  ∧ sphinx_addnodes_desc_signature_classes
      (Examples.make_state_globals ["<dl>"]
         (document Examples.desc_state_objdesc)
         ["sig"; "sig-object"; "highlight"])
    = sphinx_addnodes_desc_signature_classes
        (snd (setup tt Examples.desc_state))
  ∧ sphinx_addnodes_desc_signature_classes
      (snd (setup tt Examples.desc_state))
    = ["sig"; "sig-object"; "highlight"].
Proof.
  destruct (@setup_mutates_only_global_class_list unit unit clearing_host
              clearing_host_keeps_globals tt 0 Examples.desc_state
              Examples.desc_state)
    as [(_ & _ & _ & Hsetup) _].
  destruct (@setup_mutates_only_global_class_list unit unit clearing_host
              clearing_host_keeps_globals tt 0
              (snd (setup tt Examples.desc_state))
              (Examples.make_state_globals ["<dl>"]
                 (document Examples.desc_state_objdesc)
                 ["sig"; "sig-object"; "highlight"]))
    as [_ Hhooks].
  split; [reflexivity|]. split.
  - apply (Hhooks (@visit_desc _ clearing_host 0)); [|reflexivity].
    apply elem_of_app. left. unfold appending_hooks.
    rewrite !elem_of_cons. tauto.
  - rewrite Hsetup. reflexivity.
Defined.

(** C2, as stated, fails: [setup] changes global state of the host, and
    each further call changes it again. *)
Lemma setup_changes_global_state :
  sphinx_addnodes_desc_signature_classes (snd (setup tt Examples.desc_state))
  ≠ sphinx_addnodes_desc_signature_classes Examples.desc_state
  ∧ sphinx_addnodes_desc_signature_classes
      (snd (setup tt (snd (setup tt Examples.desc_state))))
    = ["sig"; "sig-object"; "highlight"; "highlight"].
Proof. split; [by vm_compute|reflexivity]. Qed.

(** ** Captions *)

(** The closing tags the hook itself appends in [depart_caption] before the
    host's method or the closing [div]: [caption_close_span] appends one
    exactly when the parent is no container and has no true [literal_block]
    attribute, [caption_permalink] would append one exactly for a container
    with a true [literal_block]. *)
Lemma caption_close_span_run {H} `{!HTML5Translator H}
    (node : node_id) (w : state H) (el pel : element) :
  document w !! node = Some el →
  deref (parent el) w = Some pel →
  caption_close_span node w
  = (if negb (bool_decide (class_of pel = container))
        && negb (truthy_opt (attributes pel !! "literal_block"))
     then body_append "</span>" w
     else Ok (tt, w)).
Proof.
  intros Hn Hp. unfold caption_close_span.
  rewrite (bind_ok _ _ _ _ _ (node_parent_ok _ _ _ Hn)).
  unfold bind, isinstance, node_get, ret. rewrite Hp.
  destruct (bool_decide (class_of pel = container)); [done|].
  rewrite Hp. simpl.
  by destruct (truthy_opt (attributes pel !! "literal_block")).
Qed.

(** C3 fails on the code for a caption whose parent is a container without
    a [literal_block] attribute.  Whatever the host, on such a document
    [depart_caption] is the host's [depart_caption] and nothing else, while
    [visit_caption] has appended a [span] start tag of its own; rendered with
    the reference host, the body ends up with two opened spans and one
    closed. *)
Theorem depart_caption_plain_container_unclosed :
  (∀ (H : Type) (T : HTML5Translator H) (b g : list string) (h : H),
     depart_caption 1
       (State b (document Examples.plain_container_caption_state) g h)
     = super_depart_caption 1
         (State b (document Examples.plain_container_caption_state) g h)
     ∧ visit_caption 1
         (State b (document Examples.plain_container_caption_state) g h)
       = (super_visit_caption 1 ;;
          let* p := node_parent (Some 1) in
          add_fignumber p ;;
          let* tag := starttag 1 "span" None [("class", "caption-text")] in
          body_append tag)
           (State b (document Examples.plain_container_caption_state) g h))
  ∧ ∃ w',
      (visit_caption 1 ;; depart_caption 1)
        Examples.plain_container_caption_state = Ok (tt, w')
      ∧ body w'
        = [ "<p class=" +:+ quoted "caption" +:+ ">";
            "<span class=" +:+ quoted "caption-text" +:+ ">";
            "<span class=" +:+ quoted "caption-text" +:+ ">" +:+ newline;
            "</span>";
            "</p>" +:+ newline ]
      ∧ span_opened (body w') = 2
      ∧ span_closed (body w') = 1.
Proof.
  split.
  - intros H T b g h. split.
    + unfold depart_caption.
      erewrite bind_ok; last first.
      { erewrite caption_close_span_run by reflexivity. reflexivity. }
      erewrite bind_ok by reflexivity.
      reflexivity.
    + eapply visit_caption_delegates; reflexivity.
  - eexists. split; [reflexivity|]. by vm_compute.
Qed.

(** The same two hooks on a caption of a listing and on a caption of a
    figure, rendered with the reference host: every span is closed. *)
Example caption_of_listing_balanced :
  ∃ w',
    (visit_caption 1 ;; depart_caption 1)
      Examples.literal_block_caption_state = Ok (tt, w')
    ∧ body w'
      = [ "<div class=" +:+ quoted "code-block-caption highlight" +:+ ">";
          "<span class=" +:+ quoted "caption-text filename" +:+ ">"
          +:+ newline;
          "</span>";
          "</div>" +:+ newline ]
    ∧ span_opened (body w') = span_closed (body w').
Proof. eexists. split; [reflexivity|]. by vm_compute. Qed.

Example caption_of_figure_balanced :
  ∃ w',
    (visit_caption 1 ;; depart_caption 1)
      (Examples.caption_state figure Examples.basic_attributes) = Ok (tt, w')
    ∧ span_opened (body w') = 2
    ∧ span_closed (body w') = 2.
Proof. eexists. split; [reflexivity|]. by vm_compute. Qed.

(** * Further properties *)

(** ** Substituting the parentheses *)

Lemma str_replace_char (s : string) (c : ascii) (new : string) :
  str_replace s (String c EmptyString) new = subst_char c new s.
Proof.
  unfold str_replace. induction s as [|a s IH]; [done|].
  cbn [replace_from subst_char String.prefix String.length].
  destruct (ascii_dec c a) as [->|Hne].
  - rewrite Ascii.eqb_refl. replace (String.prefix "" s) with true
      by (by destruct s).
    simpl. by rewrite IH.
  - replace (Ascii.eqb a c) with false
      by (symmetry; apply Ascii.eqb_neq; congruence).
    by rewrite IH.
Qed.

Lemma subst_char_absent (c : ascii) (new s : string) :
  c ∉ chars s → subst_char c new s = s.
Proof.
  unfold chars. induction s as [|a s IH]; [done|].
  cbn [String.list_ascii_of_string subst_char]. rewrite not_elem_of_cons.
  intros [Hne Hs].
  replace (Ascii.eqb a c) with false
    by (symmetry; apply Ascii.eqb_neq; congruence).
  rewrite app_String. cbn. by rewrite IH.
Qed.

Lemma chars_app (s t : string) : chars (s +:+ t) = chars s ++ chars t.
Proof.
  unfold chars. induction s as [|a s IH]; [done|].
  rewrite app_String. cbn [String.list_ascii_of_string]. by rewrite IH.
Qed.

Lemma subst_char_removes (c : ascii) (new s : string) :
  c ∉ chars new → c ∉ chars (subst_char c new s).
Proof.
  intros Hnew. induction s as [|a s IH]; cbn [subst_char].
  - unfold chars. simpl. apply not_elem_of_nil.
  - rewrite chars_app, not_elem_of_app. split; [|done].
    destruct (Ascii.eqb a c) eqn:Hac; [done|].
    apply Ascii.eqb_neq in Hac. unfold chars. simpl.
    rewrite not_elem_of_cons. split; [congruence|apply not_elem_of_nil].
Qed.

Section ParameterList.
Context {H : Type} `{!HTML5Translator H}.
Implicit Types (w : state H) (el : element) (node : node_id).

Lemma visit_desc_parameterlist_run node w w1 el :
  super_visit_desc_parameterlist node w = Ok (tt, w1) →
  document w1 !! node = Some el →
  visit_desc_parameterlist node w
  = (let* (open_paren, _) :=
       unpack2 (default (VTuple ["("; ")"]) (attributes el !! "parens")) in
     let* entry := body_last in
     body_set_last (str_replace entry "(" open_paren)) w1.
Proof.
  intros Hsuper Hn. unfold visit_desc_parameterlist.
  rewrite (bind_ok _ _ _ _ _ Hsuper).
  unfold node_get_default. rewrite bind_assoc.
  unfold bind at 1, node_get. simpl. by rewrite Hn.
Qed.

Lemma depart_desc_parameterlist_run node w w1 el :
  super_depart_desc_parameterlist node w = Ok (tt, w1) →
  document w1 !! node = Some el →
  depart_desc_parameterlist node w
  = (let* (_, close_paren) :=
       unpack2 (default (VTuple ["("; ")"]) (attributes el !! "parens")) in
     let* entry := body_last in
     body_set_last (str_replace entry ")" close_paren)) w1.
Proof.
  intros Hsuper Hn. unfold depart_desc_parameterlist.
  rewrite (bind_ok _ _ _ _ _ Hsuper).
  unfold node_get_default. rewrite bind_assoc.
  unfold bind at 1, node_get. simpl. by rewrite Hn.
Qed.

Lemma rewrite_last_entry (b : list string) (old : string)
    (x : string → string) w1 :
  body w1 = b ++ [old] →
  (let* entry := body_last in body_set_last (x entry)) w1
  = Ok (tt, with_body (b ++ [x old]) w1).
Proof.
  intros Hb. unfold bind, body_last, body_set_last. rewrite Hb, last_snoc.
  simpl. rewrite Hb. destruct b as [|y b]; [done|].
  simpl. unfold with_body. f_equal. f_equal. f_equal.
  rewrite length_app. simpl. rewrite Nat.add_1_r. simpl.
  f_equal. replace (length b) with (length b + 0) by lia.
  by rewrite insert_app_r.
Qed.
End ParameterList.

(** X1: with a [parens] attribute that is a pair, [visit_desc_parameterlist]
    and [depart_desc_parameterlist] keep every entry but the last as the
    host left it and put in place of the last entry that entry with every
    ["("] replaced by the first component, respectively every [")"] replaced
    by the second. *)
Theorem parameterlist_substitutes_parens {H} `{!HTML5Translator H}
    (node : node_id) (w w1 : state H) (el : element)
    (open_paren close_paren : string) (b : list string) (old : string) :
  document w1 !! node = Some el →
  attributes el !! "parens" = Some (VTuple [open_paren; close_paren]) →
  body w1 = b ++ [old] →
  (super_visit_desc_parameterlist node w = Ok (tt, w1) →
   visit_desc_parameterlist node w
   = Ok (tt, with_body (b ++ [subst_char "(" open_paren old]) w1))
  ∧ (super_depart_desc_parameterlist node w = Ok (tt, w1) →
     depart_desc_parameterlist node w
     = Ok (tt, with_body (b ++ [subst_char ")" close_paren old]) w1)).
Proof.
  intros Hn Hp Hb. split; intros Hsuper.
  - rewrite (visit_desc_parameterlist_run _ _ _ _ Hsuper Hn), Hp.
    cbn [default from_option id unpack2]. unfold bind at 1, ret at 1.
    rewrite (rewrite_last_entry b old (λ e, str_replace e "(" open_paren))
      by done.
    by rewrite str_replace_char.
  - rewrite (depart_desc_parameterlist_run _ _ _ _ Hsuper Hn), Hp.
    cbn [default from_option id unpack2]. unfold bind at 1, ret at 1.
    rewrite (rewrite_last_entry b old (λ e, str_replace e ")" close_paren))
      by done.
    by rewrite str_replace_char.
Qed.

Lemma parameterlist_substitutes_parens_witness :
  super_depart_desc_parameterlist 2 Examples.bracket_state
  = Ok (tt, MoreExamples.bracket_state_closed)
  ∧ depart_desc_parameterlist 2 Examples.bracket_state
    = Ok (tt, with_body (["<dt>"; "f"]
                         ++ [subst_char ")" "]" (Sphinx.sig_paren ")")])
                MoreExamples.bracket_state_closed)
  ∧ subst_char ")" "]" (Sphinx.sig_paren ")") = Sphinx.sig_paren "]".
Proof.
  split; [reflexivity|]. split; [|reflexivity].
  apply (parameterlist_substitutes_parens 2 Examples.bracket_state
           MoreExamples.bracket_state_closed
           Examples.bracket_parameterlist_node "[" "]" ["<dt>"; "f"]
           (Sphinx.sig_paren ")")); reflexivity.
Defined.

(** X2: when the last entry the host has emitted holds no ["("], the custom
    opening parenthesis is not used at all: [visit_desc_parameterlist] leaves
    the state exactly as the host left it; likewise [")"] and
    [depart_desc_parameterlist]. *)
Theorem parameterlist_without_paren_unchanged {H} `{!HTML5Translator H}
    (node : node_id) (w w1 : state H) (el : element)
    (open_paren close_paren : string) (old : string) :
  document w1 !! node = Some el →
  attributes el !! "parens" = Some (VTuple [open_paren; close_paren]) →
  last (body w1) = Some old →
  (super_visit_desc_parameterlist node w = Ok (tt, w1) →
   "("%char ∉ chars old →
   visit_desc_parameterlist node w = Ok (tt, w1))
  ∧ (super_depart_desc_parameterlist node w = Ok (tt, w1) →
     ")"%char ∉ chars old →
     depart_desc_parameterlist node w = Ok (tt, w1)).
Proof.
  intros Hn Hp Hl.
  assert (body_last w1 = Ok (old, w1)) as Hlast
    by (unfold body_last; by rewrite Hl).
  split; intros Hsuper Habs.
  - rewrite (visit_desc_parameterlist_run _ _ _ _ Hsuper Hn), Hp.
    cbn [default from_option id unpack2]. unfold bind at 1, ret at 1.
    rewrite (bind_ok _ _ _ _ _ Hlast), str_replace_char,
      subst_char_absent by done.
    by apply body_set_last_same.
  - rewrite (depart_desc_parameterlist_run _ _ _ _ Hsuper Hn), Hp.
    cbn [default from_option id unpack2]. unfold bind at 1, ret at 1.
    rewrite (bind_ok _ _ _ _ _ Hlast), str_replace_char,
      subst_char_absent by done.
    by apply body_set_last_same.
Qed.

Lemma parameterlist_without_paren_unchanged_witness :
  @super_visit_desc_parameterlist _ multiline_host 2 Examples.bracket_state
  = Ok (tt, MoreExamples.bracket_state_multiline)
  ∧ body MoreExamples.bracket_state_multiline !! 2
    = Some (Sphinx.sig_paren "(")
  ∧ @visit_desc_parameterlist _ multiline_host 2 Examples.bracket_state
    = Ok (tt, MoreExamples.bracket_state_multiline).
Proof.
  split; [reflexivity|]. split; [reflexivity|].
  apply (@parameterlist_without_paren_unchanged unit multiline_host 2
           Examples.bracket_state MoreExamples.bracket_state_multiline
           Examples.bracket_parameterlist_node "[" "]"
           ("<dl>" +:+ newline)); [reflexivity..|].
  apply (bool_decide_unpack _). vm_compute. exact I.
Defined.

(** X3: when the custom opening parenthesis holds no ["("] itself, the last
    body entry holds no ["("] once [visit_desc_parameterlist] has run; the
    same for [")"], the closing parenthesis and
    [depart_desc_parameterlist]. *)
Theorem parameterlist_leaves_no_paren {H} `{!HTML5Translator H}
    (node : node_id) (w w1 w' : state H) (el : element)
    (open_paren close_paren : string) :
  document w1 !! node = Some el →
  attributes el !! "parens" = Some (VTuple [open_paren; close_paren]) →
  (super_visit_desc_parameterlist node w = Ok (tt, w1) →
   visit_desc_parameterlist node w = Ok (tt, w') →
   "("%char ∉ chars open_paren →
   ∃ entry, last (body w') = Some entry ∧ "("%char ∉ chars entry)
  ∧ (super_depart_desc_parameterlist node w = Ok (tt, w1) →
     depart_desc_parameterlist node w = Ok (tt, w') →
     ")"%char ∉ chars close_paren →
     ∃ entry, last (body w') = Some entry ∧ ")"%char ∉ chars entry).
Proof.
  intros Hn Hp. split; intros Hsuper Hrun Hfree.
  - rewrite (visit_desc_parameterlist_run _ _ _ _ Hsuper Hn), Hp in Hrun.
    cbn [default from_option id unpack2] in Hrun.
    unfold bind at 1, ret at 1 in Hrun.
    destruct (body w1) as [|y b] eqn:Hb using rev_ind.
    { unfold bind, body_last in Hrun. by rewrite Hb in Hrun. }
    clear IHb.
    rewrite (rewrite_last_entry b y (λ e, str_replace e "(" open_paren))
      in Hrun by done.
    inversion Hrun; subst. exists (str_replace y "(" open_paren).
    unfold with_body. cbn [body]. rewrite last_snoc.
    split; [done|]. rewrite str_replace_char. by apply subst_char_removes.
  - rewrite (depart_desc_parameterlist_run _ _ _ _ Hsuper Hn), Hp in Hrun.
    cbn [default from_option id unpack2] in Hrun.
    unfold bind at 1, ret at 1 in Hrun.
    destruct (body w1) as [|y b] eqn:Hb using rev_ind.
    { unfold bind, body_last in Hrun. by rewrite Hb in Hrun. }
    clear IHb.
    rewrite (rewrite_last_entry b y (λ e, str_replace e ")" close_paren))
      in Hrun by done.
    inversion Hrun; subst. exists (str_replace y ")" close_paren).
    unfold with_body. cbn [body]. rewrite last_snoc.
    split; [done|]. rewrite str_replace_char. by apply subst_char_removes.
Qed.

Lemma parameterlist_leaves_no_paren_witness :
  visit_desc_parameterlist 2 Examples.bracket_state
  = Ok (tt, Examples.bracket_state_rewritten)
  ∧ ∃ entry,
      last (body Examples.bracket_state_rewritten) = Some entry
      ∧ "("%char ∉ chars entry.
Proof.
  split; [reflexivity|].
  apply (parameterlist_leaves_no_paren 2 Examples.bracket_state
           Examples.bracket_state_opened Examples.bracket_state_rewritten
           Examples.bracket_parameterlist_node "[" "]");
    [reflexivity..|].
  apply (bool_decide_unpack _). vm_compute. exact I.
Defined.

(** X4: the errors of the two parameter-list hooks themselves, once the
    host's method has returned: a [parens] attribute that is a tuple or a
    list of another length than two raises [ValueError], one that is a
    boolean or an integer raises [TypeError], and with an absent [parens] or
    one that is a pair, an empty body raises [IndexError]. *)
Theorem parameterlist_own_errors {H} `{!HTML5Translator H}
    (node : node_id) (w w1 : state H) (el : element) (e : exn) :
  document w1 !! node = Some el →
  (∃ l, (attributes el !! "parens" = Some (VTuple l)
         ∨ attributes el !! "parens" = Some (VList l))
        ∧ length l ≠ 2 ∧ e = ValueError)
  ∨ (((∃ b, attributes el !! "parens" = Some (VBool b))
      ∨ (∃ z, attributes el !! "parens" = Some (VInt z)))
     ∧ e = TypeError)
  ∨ ((attributes el !! "parens" = None
      ∨ (∃ o c, attributes el !! "parens" = Some (VTuple [o; c])))
     ∧ body w1 = [] ∧ e = IndexError) →
  (super_visit_desc_parameterlist node w = Ok (tt, w1) →
   visit_desc_parameterlist node w = Raise e)
  ∧ (super_depart_desc_parameterlist node w = Ok (tt, w1) →
     depart_desc_parameterlist node w = Raise e).
Proof.
  intros Hn Hcase. split; intros Hsuper.
  - rewrite (visit_desc_parameterlist_run _ _ _ _ Hsuper Hn).
    destruct Hcase as [(l & [-> | ->] & Hlen & ->)
                      |[([[b ->]|[z ->]] & ->)
                       |([-> | (o & c & ->)] & Hb & ->)]];
      cbn [default from_option id unpack2];
      try (by destruct l as [|a [|b [|c l]]]);
      try done;
      unfold bind, ret, body_last; by rewrite Hb.
  - rewrite (depart_desc_parameterlist_run _ _ _ _ Hsuper Hn).
    destruct Hcase as [(l & [-> | ->] & Hlen & ->)
                      |[([[b ->]|[z ->]] & ->)
                       |([-> | (o & c & ->)] & Hb & ->)]];
      cbn [default from_option id unpack2];
      try (by destruct l as [|a [|b [|c l]]]);
      try done;
      unfold bind, ret, body_last; by rewrite Hb.
Qed.

Lemma parameterlist_own_errors_witness :
  super_visit_desc_parameterlist 2 MoreExamples.triple_parens_state
  = Ok (tt, Examples.make_state ["<dt>"; "f"; Sphinx.sig_paren "("]
              (document MoreExamples.triple_parens_state))
  ∧ visit_desc_parameterlist 2 MoreExamples.triple_parens_state
    = Raise ValueError.
Proof.
  split; [reflexivity|].
  eapply (parameterlist_own_errors 2 MoreExamples.triple_parens_state
            (Examples.make_state ["<dt>"; "f"; Sphinx.sig_paren "("]
               (document MoreExamples.triple_parens_state)));
    [reflexivity| |reflexivity].
  left. exists ["("; ","; ")"]. split; [left; reflexivity|]. split; [|done].
  simpl. lia.
Defined.

(** ** Class lists *)

(** X5: the errors of [visit_desc] and [visit_desc_signature] themselves:
    on a node without a [classes] attribute they raise
    [KeyError("classes")], and on a node whose [classes] attribute is not a
    list they raise [AttributeError]; the host's visit method is not
    reached, whatever it would do. *)
Theorem class_list_own_errors {H} `{!HTML5Translator H}
    (node : node_id) (w w1 : state H) (el : element) (t : string) :
  (document w !! node = Some el →
   (attributes el !! "classes" = None →
    visit_desc node w = Raise (KeyError "classes"))
   ∧ (∀ v, attributes el !! "classes" = Some v → (∀ l, v ≠ VList l) →
           visit_desc node w = Raise AttributeError))
  ∧ (astext node w = Ok (t, w1) → document w1 !! node = Some el →
     (attributes el !! "classes" = None →
      visit_desc_signature node w = Raise (KeyError "classes"))
     ∧ (∀ v, attributes el !! "classes" = Some v → (∀ l, v ≠ VList l) →
             visit_desc_signature node w = Raise AttributeError)).
Proof.
  assert (∀ (w0 : state H) c,
            document w0 !! node = Some el →
            (attributes el !! "classes" = None →
             classes_append node c w0 = Raise (KeyError "classes"))
            ∧ (∀ v, attributes el !! "classes" = Some v →
                    (∀ l, v ≠ VList l) →
                    classes_append node c w0 = Raise AttributeError))
    as Happend.
  { intros w0 c Hn. unfold classes_append. rewrite Hn. split.
    - by intros ->.
    - intros v -> Hv. destruct v; try done. by destruct (Hv l). }
  split.
  - intros Hn. destruct (Happend w "objdesc" Hn) as [Hk Ha].
    unfold visit_desc. split.
    + intros Hc. by apply bind_raise, Hk.
    + intros v Hc Hv. by eapply bind_raise, Ha.
  - intros Ht Hn. destruct (Happend w1 "highlight" Hn) as [Hk Ha].
    unfold visit_desc_signature. rewrite (bind_ok _ _ _ _ _ Ht). split.
    + intros Hc. by apply bind_raise, Hk.
    + intros v Hc Hv. by eapply bind_raise, Ha.
Qed.

Lemma class_list_own_errors_witness :
  visit_desc 0 TermExamples.desc_state_without_classes
  = Raise (KeyError "classes")
  ∧ @visit_desc _ failing_host 0 TermExamples.desc_state_tuple_classes
    = Raise AttributeError.
Proof.
  split.
  - destruct (class_list_own_errors 0 TermExamples.desc_state_without_classes
                TermExamples.desc_state_without_classes
                TermExamples.desc_node_without_classes "") as [Hd _].
    destruct (Hd eq_refl) as [Hk _]. apply Hk. reflexivity.
  - destruct (@class_list_own_errors unit failing_host 0
                TermExamples.desc_state_tuple_classes
                TermExamples.desc_state_tuple_classes
                TermExamples.desc_node_tuple_classes "") as [Hd _].
    destruct (Hd eq_refl) as [_ Ha].
    apply (Ha (VTuple ["py"])); [reflexivity|done].
Defined.

Section ExtendsFacts.
Context {H : Type}.
Implicit Types (w : state H) (el : element) (node : node_id).

Lemma extends_classes w w' node el l :
  extends w w' →
  document w !! node = Some el →
  attributes el !! "classes" = Some (VList l) →
  ∃ el' l', document w' !! node = Some el'
            ∧ attributes el' !! "classes" = Some (VList (l ++ l'))
            ∧ parent el' = parent el ∧ class_of el' = class_of el.
Proof.
  intros (_ & Hd & _) Hn Hc.
  destruct (Hd _ _ Hn) as (el' & Hn' & Hcl & Hp & _ & _ & Hl).
  rewrite Hc in Hl. destruct Hl as [l' Hl]. by exists el', l'.
Qed.

Lemma classes_append_inv node c w w' :
  classes_append node c w = Ok (tt, w') →
  ∃ el l, document w !! node = Some el
          ∧ attributes el !! "classes" = Some (VList l)
          ∧ w' = update_node node (set_classes el (l ++ [c])) w.
Proof.
  unfold classes_append.
  destruct (document w !! node) as [el|]; [|done].
  destruct (attributes el !! "classes") as [[]|] eqn:Hc; try done.
  intros Hrun. inversion Hrun. by eexists _, _.
Qed.

Lemma classes_of_lookup node w el l :
  document w !! node = Some el →
  attributes el !! "classes" = Some (VList l) →
  classes_of node w = l.
Proof. unfold classes_of. by intros -> ->. Qed.
End ExtendsFacts.

(** X6: [visit_desc] does not test whether [objdesc] is in the class list
    already.  With a host whose methods only append, visiting the same node
    twice leaves [objdesc] twice in its class list, each time after what the
    list held when the visit began. *)
Theorem visit_desc_twice_appends_twice {H} `{!HTML5Translator H}
    `{!HostAppendsOnly H} (node : node_id) (w w' : state H) (el : element)
    (l : list string) :
  document w !! node = Some el →
  attributes el !! "classes" = Some (VList l) →
  (visit_desc node ;; visit_desc node) w = Ok (tt, w') →
  ∃ l1 l2,
    classes_of node w' = l ++ ["objdesc"] ++ l1 ++ ["objdesc"] ++ l2.
Proof.
  intros Hn Hc Hrun.
  apply bind_inv in Hrun as ([] & w1 & Hfirst & Hsecond).
  unfold visit_desc in Hfirst, Hsecond.
  rewrite (bind_ok _ _ _ _ _ (classes_append_ok _ "objdesc" _ _ _ Hn Hc))
    in Hfirst.
  apply super_visit_desc_appends in Hfirst.
  destruct (extends_classes _ _ node _ _ Hfirst (update_node_lookup _ _ _)
              (set_classes_lookup _ _)) as (el1 & l1 & Hn1 & Hc1 & _).
  rewrite (bind_ok _ _ _ _ _ (classes_append_ok _ "objdesc" _ _ _ Hn1 Hc1))
    in Hsecond.
  apply super_visit_desc_appends in Hsecond.
  destruct (extends_classes _ _ node _ _ Hsecond (update_node_lookup _ _ _)
              (set_classes_lookup _ _)) as (el2 & l2 & Hn2 & Hc2 & _).
  exists l1, l2. rewrite (classes_of_lookup _ _ _ _ Hn2 Hc2).
  by rewrite <- !(assoc_L (++)).
Qed.

Lemma visit_desc_twice_appends_twice_witness :
  ∃ w',
    (visit_desc 0 ;; visit_desc 0) Examples.desc_state = Ok (tt, w')
    ∧ classes_of 0 w' = ["py"; "function"; "objdesc"; "objdesc"]
    ∧ ∃ l1 l2,
        classes_of 0 w'
        = ["py"; "function"] ++ ["objdesc"] ++ l1 ++ ["objdesc"] ++ l2.
Proof.
  eexists. split; [reflexivity|]. split; [reflexivity|].
  apply (visit_desc_twice_appends_twice 0 Examples.desc_state _
           Examples.desc_node ["py"; "function"]); reflexivity.
Defined.

(** ** depart_term and depart_field_name *)

(** X7: [depart_term] tests the presence of the [ids] attribute, not its
    content: with the attribute, even an empty list, it asks the host for a
    permalink to the node and then runs the host's [depart_term]; without
    it, it is the host's [depart_term] alone. *)
Theorem depart_term_tests_key_presence {H} `{!HTML5Translator H}
    (node : node_id) (w : state H) (el : element) :
  document w !! node = Some el →
  (∀ v, attributes el !! "ids" = Some v →
        depart_term node w
        = (add_permalink_ref (Some node)
             (gettext "Permalink to this definition") ;;
           super_depart_term node) w)
  ∧ (attributes el !! "ids" = None →
     depart_term node w = super_depart_term node w).
Proof.
  intros Hn. unfold depart_term.
  assert (node_contains node "ids" w
          = Ok (bool_decide (is_Some (attributes el !! "ids")), w)) as Hc
    by (unfold node_contains; by rewrite Hn).
  rewrite (bind_ok _ _ _ _ _ Hc). split.
  - intros v Hv. by rewrite bool_decide_eq_true_2 by (by rewrite Hv).
  - intros Hv. rewrite bool_decide_eq_false_2.
    + done.
    + rewrite Hv. by intros [? ?].
Qed.

Lemma depart_term_tests_key_presence_witness :
  attributes TermExamples.term_node !! "ids" = Some (VList [])
  ∧ depart_term 0 TermExamples.term_state
    = (add_permalink_ref (Some 0) (gettext "Permalink to this definition") ;;
       super_depart_term 0) TermExamples.term_state.
Proof.
  split; [reflexivity|].
  destruct (depart_term_tests_key_presence 0 TermExamples.term_state
              TermExamples.term_node) as [Hkey _]; [reflexivity|].
  apply (Hkey (VList [])). reflexivity.
Defined.

(** ** depart_caption, case by case *)

Section CaptionRuns.
Context {H : Type} `{!HTML5Translator H}.
Implicit Types (w : state H) (el pel : element) (node : node_id).

Lemma caption_permalink_run node w el pel :
  document w !! node = Some el →
  deref (parent el) w = Some pel →
  caption_permalink node w
  = (if bool_decide (class_of pel = container)
        && truthy_opt (attributes pel !! "literal_block")
     then (add_permalink_ref (parent el) (gettext "Permalink to this code") ;;
           body_append "</span>") w
     else if bool_decide (class_of pel = figure)
     then add_permalink_ref (parent el) (gettext "Permalink to this image") w
     else if truthy_opt (attributes pel !! "toctree")
     then add_permalink_ref (parent pel)
            (gettext "Permalink to this toctree") w
     else Ok (tt, w)).
Proof.
  intros Hn Hp. unfold caption_permalink.
  rewrite (bind_ok _ _ _ _ _ (parent_is_literal_block_ok _ _ _ Hn)).
  unfold is_literal_block. rewrite Hp.
  destruct (bool_decide (class_of pel = container)
            && truthy_opt (attributes pel !! "literal_block")).
  - by rewrite (bind_ok _ _ _ _ _ (node_parent_ok _ _ _ Hn)).
  - rewrite (bind_ok _ _ _ _ _ (node_parent_ok _ _ _ Hn)).
    unfold bind at 1, isinstance at 1. rewrite Hp.
    destruct (bool_decide (class_of pel = figure)); [done|].
    unfold bind at 1, node_get at 1. rewrite Hp.
    destruct (truthy_opt (attributes pel !! "toctree")); [|done].
    unfold bind at 1, node_parent at 1. by rewrite Hp.
Qed.

Lemma caption_close_run node w el :
  document w !! node = Some el →
  caption_close node w
  = (if is_literal_block (parent el) w
     then body_append ("</div>" +:+ newline) w
     else super_depart_caption node w).
Proof.
  intros Hn. unfold caption_close.
  rewrite (bind_ok _ _ _ _ _ (parent_is_literal_block_ok _ _ _ Hn)).
  by destruct (is_literal_block (parent el) w).
Qed.

Lemma extends_caption node w w1 el pel :
  extends w w1 →
  document w !! node = Some el →
  deref (parent el) w = Some pel →
  ∃ el1, document w1 !! node = Some el1
         ∧ parent el1 = parent el
         ∧ is_literal_block (parent el) w1 = is_literal_block (parent el) w.
Proof.
  intros (_ & Hd & _) Hn Hp.
  destruct (Hd _ _ Hn) as (el1 & Hn1 & _ & Hpar & _).
  exists el1. split_and!; try done.
  unfold is_literal_block. rewrite Hp.
  destruct (parent el) as [p|]; [|done]. simpl in Hp |- *.
  destruct (Hd _ _ Hp) as (pel1 & -> & Hc & _ & _ & Ha & _).
  by rewrite Hc, Ha.
Qed.
End CaptionRuns.

Lemma depart_caption_listing_run {H} `{!HTML5Translator H}
    `{!HostAppendsOnly H} (node : node_id) (w : state H) (el : element) :
  document w !! node = Some el →
  is_literal_block (parent el) w = true →
  depart_caption node w
  = (add_permalink_ref (parent el) (gettext "Permalink to this code") ;;
     body_append "</span>" ;;
     body_append ("</div>" +:+ newline)) w.
Proof.
  intros Hn Hlit.
  destruct (deref (parent el) w) as [pel|] eqn:Hp;
    [|by unfold is_literal_block in Hlit; rewrite Hp in Hlit].
  assert (bool_decide (class_of pel = container)
          && truthy_opt (attributes pel !! "literal_block") = true) as Hcase
    by (by unfold is_literal_block in Hlit; rewrite Hp in Hlit).
  apply andb_prop in Hcase as Hboth. destruct Hboth as [Hc Hl].
  unfold depart_caption.
  erewrite bind_ok; last first.
  { rewrite (caption_close_span_run _ _ _ _ Hn Hp), Hc. reflexivity. }
  unfold bind at 1. rewrite (caption_permalink_run _ _ _ _ Hn Hp), Hcase.
  destruct (add_permalink_ref (parent el) (gettext "Permalink to this code") w)
    as [[[] w1]|e] eqn:Hperm.
  - rewrite (bind_ok _ _ _ _ _ Hperm). unfold body_append at 1.
    destruct (extends_caption node w w1 el pel) as (el1 & Hn1 & Hpar & Hlit1);
      [by eapply add_permalink_ref_appends|done..|].
    erewrite caption_close_run by exact Hn1.
    rewrite Hpar.
    change (is_literal_block (parent el) ?s)
      with (is_literal_block (parent el) w1).
    rewrite Hlit1, Hlit. unfold bind at 1. rewrite Hperm.
    reflexivity.
  - rewrite (bind_raise _ _ _ _ Hperm). unfold bind at 1. by rewrite Hperm.
Qed.

(** X8: for a caption of a listing (the parent is a container with a true
    [literal_block] attribute) and a host whose methods only append,
    [depart_caption] asks the host for the permalink to the listing and then
    appends ["</span>"] and ["</div>\n"]; the host's [depart_caption] is not
    run. *)
Theorem depart_caption_of_listing {H} `{!HTML5Translator H}
    `{!HostAppendsOnly H} (node : node_id) (w w1 : state H) (el : element) :
  document w !! node = Some el →
  is_literal_block (parent el) w = true →
  add_permalink_ref (parent el) (gettext "Permalink to this code") w
  = Ok (tt, w1) →
  depart_caption node w
  = Ok (tt, with_body (body w1 ++ ["</span>"; "</div>" +:+ newline]) w1).
Proof.
  intros Hn Hlit Hperm.
  rewrite (depart_caption_listing_run _ _ _ Hn Hlit).
  rewrite (bind_ok _ _ _ _ _ Hperm).
  unfold bind, body_append, with_body. simpl.
  by rewrite <- (assoc_L (++)).
Qed.

Lemma depart_caption_of_listing_witness :
  add_permalink_ref (Some 0) (gettext "Permalink to this code")
    Examples.literal_block_caption_state
  = Ok (tt, Examples.literal_block_caption_state)
  ∧ depart_caption 1 Examples.literal_block_caption_state
    = Ok (tt, with_body ([] ++ ["</span>"; "</div>" +:+ newline])
                Examples.literal_block_caption_state).
Proof.
  split; [reflexivity|].
  apply (depart_caption_of_listing 1 Examples.literal_block_caption_state
           Examples.literal_block_caption_state Examples.caption_node);
    reflexivity.
Defined.

(** X9: for a caption whose parent is no container and has no true
    [literal_block] attribute, and a host whose methods only append,
    [depart_caption] appends ["</span>"] first; then, for a figure, it asks
    for the permalink to the figure, for a parent with a true [toctree]
    attribute, for the permalink to the parent of that parent, and otherwise
    for none; the host's [depart_caption] runs last. *)
Theorem depart_caption_closes_span_first {H} `{!HTML5Translator H}
    `{!HostAppendsOnly H} (node : node_id) (w : state H) (el pel : element) :
  document w !! node = Some el →
  deref (parent el) w = Some pel →
  class_of pel ≠ container →
  truthy_opt (attributes pel !! "literal_block") = false →
  (class_of pel = figure →
   ∀ w1, add_permalink_ref (parent el) (gettext "Permalink to this image")
           (with_body (body w ++ ["</span>"]) w) = Ok (tt, w1) →
         depart_caption node w = super_depart_caption node w1)
  ∧ (class_of pel ≠ figure →
     truthy_opt (attributes pel !! "toctree") = true →
     ∀ w1, add_permalink_ref (parent pel)
             (gettext "Permalink to this toctree")
             (with_body (body w ++ ["</span>"]) w) = Ok (tt, w1) →
           depart_caption node w = super_depart_caption node w1)
  ∧ (class_of pel ≠ figure →
     truthy_opt (attributes pel !! "toctree") = false →
     depart_caption node w
     = super_depart_caption node (with_body (body w ++ ["</span>"]) w)).
Proof.
  intros Hn Hp Hc Hl.
  set (ws := with_body (body w ++ ["</span>"]) w).
  assert (is_literal_block (parent el) ws = false) as Hlit.
  { unfold is_literal_block. change (deref (parent el) ws)
      with (deref (parent el) w).
    by rewrite Hp, Hl, andb_false_r. }
  assert (caption_close_span node w = Ok (tt, ws)) as Hclose.
  { rewrite (caption_close_span_run _ _ _ _ Hn Hp), Hl.
    by rewrite bool_decide_eq_false_2. }
  assert (∀ w1, extends ws w1 →
                caption_close node w1 = super_depart_caption node w1)
    as Hlast.
  { intros w1 Hext.
    destruct (extends_caption node ws w1 el pel) as (el1 & Hn1 & Hpar & Hl1);
      [done..|].
    rewrite (caption_close_run _ _ _ Hn1), Hpar, Hl1. by rewrite Hlit. }
  pose proof (caption_permalink_run node ws el pel Hn Hp) as Hperm.
  rewrite Hl, andb_false_r in Hperm.
  unfold depart_caption. rewrite (bind_ok _ _ _ _ _ Hclose).
  split_and!.
  - intros Hf w1 Hcall. rewrite bool_decide_eq_true_2 in Hperm by done.
    rewrite Hcall in Hperm. rewrite (bind_ok _ _ _ _ _ Hperm).
    apply Hlast. by eapply add_permalink_ref_appends.
  - intros Hf Ht w1 Hcall. rewrite bool_decide_eq_false_2, Ht in Hperm by done.
    rewrite Hcall in Hperm. rewrite (bind_ok _ _ _ _ _ Hperm).
    apply Hlast. by eapply add_permalink_ref_appends.
  - intros Hf Ht. rewrite bool_decide_eq_false_2, Ht in Hperm by done.
    rewrite (bind_ok _ _ _ _ _ Hperm).
    apply Hlast, extends_refl.
Qed.

Lemma depart_caption_closes_span_first_witness :
  ∃ w1,
    add_permalink_ref (Some 2) (gettext "Permalink to this toctree")
      (with_body ["Contents"; "</span>"] CaptionExamples.toctree_caption_state)
    = Ok (tt, w1)
    ∧ body w1 !! 2
      = Some ("<a class=" +:+ quoted "headerlink"
              +:+ " href=" +:+ quoted "#contents"
              +:+ " title=" +:+ quoted "Permalink to this toctree"
              +:+ ">" +:+ String "182"%char "</a>")
    ∧ depart_caption 1 CaptionExamples.toctree_caption_state
      = super_depart_caption 1 w1.
Proof.
  eexists. split; [reflexivity|]. split; [reflexivity|].
  destruct (depart_caption_closes_span_first 1
              CaptionExamples.toctree_caption_state
              Examples.caption_node CaptionExamples.toctree_node)
    as (_ & Htoc & _); [reflexivity|reflexivity|done|reflexivity|].
  apply Htoc; [done|reflexivity|reflexivity].
Defined.

(** X10: [depart_caption] appends no closing span of its own in the two
    mixed cases: a container without a true [literal_block] attribute, and
    a parent that is no container but has one.  The permalink call, if there
    is one (for a figure, else for a parent with a true [toctree]
    attribute), receives the state [depart_caption] started in, and as long
    as the caption is still no caption of a listing afterwards, the host's
    [depart_caption] receives the state that call returned; without a
    permalink call [depart_caption] is the host's [depart_caption] and
    nothing else. *)
Theorem depart_caption_without_closing_span {H} `{!HTML5Translator H}
    (node : node_id) (w : state H) (el pel : element) :
  document w !! node = Some el →
  deref (parent el) w = Some pel →
  (class_of pel = container
   ∧ truthy_opt (attributes pel !! "literal_block") = false)
  ∨ (class_of pel ≠ container
     ∧ truthy_opt (attributes pel !! "literal_block") = true) →
  (class_of pel = figure →
   ∀ w1 el1,
     add_permalink_ref (parent el) (gettext "Permalink to this image") w
     = Ok (tt, w1) →
     document w1 !! node = Some el1 →
     is_literal_block (parent el1) w1 = false →
     depart_caption node w = super_depart_caption node w1)
  ∧ (class_of pel ≠ figure →
     truthy_opt (attributes pel !! "toctree") = true →
     ∀ w1 el1,
       add_permalink_ref (parent pel) (gettext "Permalink to this toctree") w
       = Ok (tt, w1) →
       document w1 !! node = Some el1 →
       is_literal_block (parent el1) w1 = false →
       depart_caption node w = super_depart_caption node w1)
  ∧ (class_of pel ≠ figure →
     truthy_opt (attributes pel !! "toctree") = false →
     depart_caption node w = super_depart_caption node w).
Proof.
  intros Hn Hp Hmixed.
  assert (bool_decide (class_of pel = container)
          && truthy_opt (attributes pel !! "literal_block") = false
          ∧ negb (bool_decide (class_of pel = container))
            && negb (truthy_opt (attributes pel !! "literal_block")) = false)
    as [Hlit Hspan].
  { destruct Hmixed as [[Hc Hl]|[Hc Hl]]; rewrite Hl.
    - by rewrite bool_decide_eq_true_2.
    - by rewrite bool_decide_eq_false_2. }
  assert (caption_close_span node w = Ok (tt, w)) as Hclose
    by (by rewrite (caption_close_span_run _ _ _ _ Hn Hp), Hspan).
  pose proof (caption_permalink_run node w el pel Hn Hp) as Hperm.
  rewrite Hlit in Hperm.
  assert (∀ w1 el1, document w1 !! node = Some el1 →
                    is_literal_block (parent el1) w1 = false →
                    caption_close node w1 = super_depart_caption node w1)
    as Hlast.
  { intros w1 el1 Hn1 Hl1. by rewrite (caption_close_run _ _ _ Hn1), Hl1. }
  unfold depart_caption. rewrite (bind_ok _ _ _ _ _ Hclose).
  split_and!.
  - intros Hf w1 el1 Hcall Hn1 Hl1.
    rewrite bool_decide_eq_true_2 in Hperm by done.
    rewrite Hcall in Hperm. rewrite (bind_ok _ _ _ _ _ Hperm).
    by eapply Hlast.
  - intros Hf Ht w1 el1 Hcall Hn1 Hl1.
    rewrite bool_decide_eq_false_2, Ht in Hperm by done.
    rewrite Hcall in Hperm. rewrite (bind_ok _ _ _ _ _ Hperm).
    by eapply Hlast.
  - intros Hf Ht. rewrite bool_decide_eq_false_2, Ht in Hperm by done.
    rewrite (bind_ok _ _ _ _ _ Hperm).
    eapply Hlast; [done|]. unfold is_literal_block. by rewrite Hp, Hlit.
Qed.

Lemma depart_caption_without_closing_span_witness :
  add_permalink_ref (Some 0) (gettext "Permalink to this image")
    CaptionExamples.marked_figure_caption_state
  = Ok (tt, with_body
              ["Figure";
               "<a class=" +:+ quoted "headerlink"
               +:+ " href=" +:+ quoted "#fig-1"
               +:+ " title=" +:+ quoted "Permalink to this image"
               +:+ ">" +:+ String "182"%char "</a>"]
              CaptionExamples.marked_figure_caption_state)
  ∧ depart_caption 1 CaptionExamples.marked_figure_caption_state
    = super_depart_caption 1
        (with_body
           ["Figure";
            "<a class=" +:+ quoted "headerlink"
            +:+ " href=" +:+ quoted "#fig-1"
            +:+ " title=" +:+ quoted "Permalink to this image"
            +:+ ">" +:+ String "182"%char "</a>"]
           CaptionExamples.marked_figure_caption_state)
  ∧ depart_caption 1 CaptionExamples.marked_quote_caption_state
    = super_depart_caption 1 CaptionExamples.marked_quote_caption_state.
Proof.
  split; [reflexivity|]. split.
  - destruct (depart_caption_without_closing_span 1
                CaptionExamples.marked_figure_caption_state
                Examples.caption_node CaptionExamples.marked_figure_node)
      as (Hfig & _ & _); [reflexivity|reflexivity| |].
    { right. split; [done|reflexivity]. }
    apply (Hfig eq_refl _ Examples.caption_node); reflexivity.
  - destruct (depart_caption_without_closing_span 1
                CaptionExamples.marked_quote_caption_state
                Examples.caption_node
                (Element (other_element "block_quote")
                   Examples.literal_block_attributes None ""))
      as (_ & _ & Hplain); [reflexivity|reflexivity| |].
    { right. split; [done|reflexivity]. }
    apply Hplain; [done|reflexivity].
Defined.

(** X11: on a caption without parent, [depart_caption] raises
    [AttributeError] before anything else, whereas [visit_caption] runs the
    host's [visit_caption] and hands [None] to [add_fignumber]. *)
Theorem caption_without_parent {H} `{!HTML5Translator H}
    (node : node_id) (w : state H) (el : element) :
  document w !! node = Some el →
  parent el = None →
  depart_caption node w = Raise AttributeError
  ∧ visit_caption node w
    = (super_visit_caption node ;;
       let* p := node_parent (Some node) in
       add_fignumber p ;;
       let* tag := starttag node "span" None [("class", "caption-text")] in
       body_append tag) w.
Proof.
  intros Hn Hp. split.
  - unfold depart_caption. apply bind_raise. unfold caption_close_span.
    rewrite (bind_ok _ _ _ _ _ (node_parent_ok _ _ _ Hn)), Hp.
    reflexivity.
  - apply (visit_caption_delegates _ _ _ Hn).
    unfold is_literal_block. by rewrite Hp.
Qed.

Lemma caption_without_parent_witness :
  parent CaptionExamples.orphan_caption_node = None
  ∧ depart_caption 1 CaptionExamples.orphan_caption_state
    = Raise AttributeError.
Proof.
  split; [reflexivity|].
  apply (caption_without_parent 1 CaptionExamples.orphan_caption_state
           CaptionExamples.orphan_caption_node); reflexivity.
Defined.

(** X12: what [visit_caption] followed by [depart_caption] adds to the
    body for a caption of a listing, with a host whose methods only append:
    the opening [div], what the host's [add_fignumber] emits for the parent,
    what the host's [starttag] emits while it builds the [span] start tag
    for the class [caption-text filename], that start tag, what the host's
    [add_permalink_ref] emits for the parent, and the two closing tags.  The
    host's [visit_caption] and [depart_caption] add nothing, as they are not
    run. *)
Theorem listing_caption_markup {H} `{!HTML5Translator H}
    `{!HostAppendsOnly H} (node : node_id) (w w' : state H) (el : element) :
  document w !! node = Some el →
  is_literal_block (parent el) w = true →
  (visit_caption node ;; depart_caption node) w = Ok (tt, w') →
  ∃ w2 tag w3 w4 kf ks kp,
    add_fignumber (parent el)
      (State (body w ++ ["<div class="
                         +:+ quoted "code-block-caption highlight" +:+ ">"])
             (document w) (sphinx_addnodes_desc_signature_classes w)
             (host w))
    = Ok (tt, w2)
    ∧ starttag node "span" None [("class", "caption-text filename")] w2
      = Ok (tag, w3)
    ∧ add_permalink_ref (parent el) (gettext "Permalink to this code")
        (State (body w3 ++ [tag]) (document w3)
               (sphinx_addnodes_desc_signature_classes w3) (host w3))
      = Ok (tt, w4)
    ∧ body w2
      = body w
        ++ ["<div class=" +:+ quoted "code-block-caption highlight" +:+ ">"]
        ++ kf
    ∧ body w3 = body w2 ++ ks
    ∧ body w4 = body w3 ++ [tag] ++ kp
    ∧ w' = State (body w
                  ++ ["<div class="
                      +:+ quoted "code-block-caption highlight" +:+ ">"]
                  ++ kf ++ ks ++ [tag] ++ kp
                  ++ ["</span>"; "</div>" +:+ newline])
             (document w4) (sphinx_addnodes_desc_signature_classes w4)
             (host w4).
Proof.
  intros Hn Hlit Hrun.
  destruct (deref (parent el) w) as [pel|] eqn:Hp;
    [|by unfold is_literal_block in Hlit; rewrite Hp in Hlit].
  apply bind_inv in Hrun as ([] & wv & Hvisit & Hdepart).
  rewrite (visit_caption_literal_block _ _ _ Hn Hlit) in Hvisit.
  apply bind_inv in Hvisit as ([] & wd & Hdiv & Hvisit).
  apply bind_inv in Hvisit as ([] & w2 & Hfig & Hvisit).
  apply bind_inv in Hvisit as (tag & w3 & Htag & Hvisit).
  inversion Hdiv; subst wd; clear Hdiv.
  inversion Hvisit; subst wv; clear Hvisit.
  pose proof (add_fignumber_appends _ _ _ _ Hfig) as Hfext.
  pose proof (starttag_appends _ _ _ _ _ _ _ Htag) as Hsext.
  pose proof (extends_trans _ _ _ Hfext Hsext) as Hext.
  destruct Hfext as ([kf Hkf] & _). destruct Hsext as ([ks Hks] & _).
  simpl in Hkf.
  destruct (extends_caption node
              (State (body w ++ ["<div class="
                                 +:+ quoted "code-block-caption highlight"
                                 +:+ ">"])
                 (document w) (sphinx_addnodes_desc_signature_classes w)
                 (host w))
              w3 el pel) as (el2 & Hn2 & Hpar & Hlit2);
    [done..|].
  rewrite (depart_caption_listing_run node _ el2) in Hdepart;
    [|exact Hn2|by rewrite Hpar; etrans; [exact Hlit2|exact Hlit]].
  rewrite Hpar in Hdepart.
  apply bind_inv in Hdepart as ([] & w4 & Hperm & Hdepart).
  pose proof (add_permalink_ref_appends _ _ _ _ _ Hperm) as ([kp Hkp] & _).
  simpl in Hkp. unfold bind, body_append in Hdepart.
  inversion Hdepart; subst w'; clear Hdepart.
  exists w2, tag, w3, w4, kf, ks, kp.
  split_and!; try done.
  - by rewrite Hkf, <- (assoc_L (++)).
  - by rewrite Hkp, <- (assoc_L (++)).
  - simpl. f_equal. rewrite Hkp, Hks, Hkf.
    by rewrite <- !(assoc_L (++)).
Qed.

Lemma listing_caption_markup_witness :
  (visit_caption 1 ;; depart_caption 1) Examples.literal_block_caption_state
  = Ok (tt, Examples.make_state
              ["<div class=" +:+ quoted "code-block-caption highlight"
               +:+ ">";
               "<span class=" +:+ quoted "caption-text filename" +:+ ">"
               +:+ newline;
               "</span>"; "</div>" +:+ newline]
              (document Examples.literal_block_caption_state))
  ∧ ∃ w2 tag w3 w4 kf ks kp,
      starttag 1 "span" None [("class", "caption-text filename")] w2
      = Ok (tag, w3)
      ∧ Examples.make_state
          ["<div class=" +:+ quoted "code-block-caption highlight" +:+ ">";
           "<span class=" +:+ quoted "caption-text filename" +:+ ">"
           +:+ newline;
           "</span>"; "</div>" +:+ newline]
          (document Examples.literal_block_caption_state)
        = State (body Examples.literal_block_caption_state
                 ++ ["<div class="
                     +:+ quoted "code-block-caption highlight" +:+ ">"]
                 ++ kf ++ ks ++ [tag] ++ kp
                 ++ ["</span>"; "</div>" +:+ newline])
            (document w4) (sphinx_addnodes_desc_signature_classes w4)
            (host w4).
Proof.
  split; [reflexivity|].
  destruct (listing_caption_markup 1 Examples.literal_block_caption_state
              (Examples.make_state
                 ["<div class=" +:+ quoted "code-block-caption highlight"
                  +:+ ">";
                  "<span class=" +:+ quoted "caption-text filename" +:+ ">"
                  +:+ newline;
                  "</span>"; "</div>" +:+ newline]
                 (document Examples.literal_block_caption_state))
              Examples.caption_node)
    as (w2 & tag & w3 & w4 & kf & ks & kp & _ & Htag & _ & _ & _ & _ & Hw);
    [reflexivity..|].
  by exists w2, tag, w3, w4, kf, ks, kp.
Defined.

(** ** The span wrappers *)

(** X13: with a host whose methods only append, [visit_desc_parameter] puts
    its [span] start tag right after the body it found, before anything the
    host emits for the parameter, and [depart_desc_parameter] leaves
    ["</span>"] as the last entry, after what the host emits; run one after
    the other they enclose the host's output. *)
Theorem desc_parameter_wraps_host_output {H} `{!HTML5Translator H}
    `{!HostAppendsOnly H} (node : node_id) (w w' : state H) :
  (visit_desc_parameter node w = Ok (tt, w') →
   ∃ k, body w'
        = body w ++ ["<span class=" +:+ quoted "sig-param-decl" +:+ ">"] ++ k)
  ∧ (depart_desc_parameter node w = Ok (tt, w') →
     ∃ k, body w' = body w ++ k ++ ["</span>"])
  ∧ ((visit_desc_parameter node ;; depart_desc_parameter node) w
     = Ok (tt, w') →
     ∃ k, body w'
          = body w ++ ["<span class=" +:+ quoted "sig-param-decl" +:+ ">"]
            ++ k ++ ["</span>"]).
Proof.
  assert (∀ w0 w1 : state H,
            visit_desc_parameter node w0 = Ok (tt, w1) →
            ∃ k, body w1
                 = body w0
                   ++ ["<span class=" +:+ quoted "sig-param-decl" +:+ ">"]
                   ++ k) as Hvisit.
  { intros w0 w1 Hrun. unfold visit_desc_parameter in Hrun.
    apply bind_inv in Hrun as ([] & wd & Hopen & Hsuper).
    inversion Hopen; subst wd; clear Hopen.
    apply super_visit_desc_parameter_appends in Hsuper as ([k Hk] & _).
    simpl in Hk. exists k. by rewrite Hk, <- (assoc_L (++)). }
  assert (∀ w0 w1 : state H,
            depart_desc_parameter node w0 = Ok (tt, w1) →
            ∃ k, body w1 = body w0 ++ k ++ ["</span>"]) as Hdepart.
  { intros w0 w1 Hrun. unfold depart_desc_parameter in Hrun.
    apply bind_inv in Hrun as ([] & ws & Hsuper & Hclose).
    inversion Hclose; subst w1; clear Hclose.
    apply super_depart_desc_parameter_appends in Hsuper as ([k Hk] & _).
    simpl. exists k. by rewrite Hk, <- (assoc_L (++)). }
  split_and!; [apply Hvisit|apply Hdepart|].
  intros Hrun. apply bind_inv in Hrun as ([] & w1 & Hv & Hd).
  destruct (Hvisit _ _ Hv) as [k1 Hk1]. destruct (Hdepart _ _ Hd) as [k2 Hk2].
  exists (k1 ++ k2). rewrite Hk2, Hk1. by rewrite <- !(assoc_L (++)).
Qed.

Lemma desc_parameter_wraps_host_output_witness :
  ∃ w',
    (visit_desc_parameter 2 ;; depart_desc_parameter 2) Examples.default_state
    = Ok (tt, w')
    ∧ body w'
      = ["<dt>"; "f"; "<span class=" +:+ quoted "sig-param-decl" +:+ ">";
         "<em class=" +:+ quoted "sig-param" +:+ ">"; "</em>"; "</span>"]
    ∧ ∃ k, body w'
           = body Examples.default_state
             ++ ["<span class=" +:+ quoted "sig-param-decl" +:+ ">"]
             ++ k ++ ["</span>"].
Proof.
  eexists. split; [reflexivity|]. split; [reflexivity|].
  destruct (desc_parameter_wraps_host_output 2 Examples.default_state
              (Examples.make_state
                 ["<dt>"; "f";
                  "<span class=" +:+ quoted "sig-param-decl" +:+ ">";
                  "<em class=" +:+ quoted "sig-param" +:+ ">"; "</em>";
                  "</span>"]
                 (document Examples.default_state)))
    as (_ & _ & Hpair).
  apply Hpair. reflexivity.
Defined.

(** X14: [visit_desc_type] followed by [depart_desc_type] succeeds exactly
    when the host's [starttag] does, and then leaves the start tag the host
    built, directly followed by ["</span>"], at the end of the body;
    [depart_desc_type] itself never fails. *)
Theorem desc_type_pair {H} `{!HTML5Translator H}
    (node : node_id) (w w' : state H) :
  (visit_desc_type node ;; depart_desc_type node) w = Ok (tt, w')
  ↔ ∃ tag w1,
      starttag node "span" (Some "") [("CLASS", "desctype")] w = Ok (tag, w1)
      ∧ w' = with_body (body w1 ++ [tag; "</span>"]) w1.
Proof.
  unfold visit_desc_type, depart_desc_type. split.
  - intros Hrun.
    apply bind_inv in Hrun as ([] & w2 & Hvisit & Hdepart).
    apply bind_inv in Hvisit as (tag & w1 & Htag & Happend).
    inversion Happend; subst w2; clear Happend.
    inversion Hdepart; subst w'; clear Hdepart.
    exists tag, w1. split; [done|]. unfold with_body. simpl.
    by rewrite <- (assoc_L (++)).
  - intros (tag & w1 & Htag & ->).
    rewrite bind_assoc, (bind_ok _ _ _ _ _ Htag).
    unfold bind, body_append, with_body. simpl.
    by rewrite <- (assoc_L (++)).
Qed.

(** ** Where the errors of the hooks come from *)

Section OwnErrors.
Context {H : Type}.
Implicit Types (w : state H) (e : exn).

Lemma bind_raise_inv {A B} (m : M H A) (k : A → M H B) w e :
  bind m k w = Raise e →
  m w = Raise e ∨ ∃ a w1, m w = Ok (a, w1) ∧ k a w1 = Raise e.
Proof.
  unfold bind. destruct (m w) as [[a w1]|e'].
  - intros Hk. right. by exists a, w1.
  - intros [= ->]. by left.
Qed.

Lemma classes_append_raise node c w e :
  classes_append node c w = Raise e → e ∈ python_errors.
Proof.
  unfold classes_append, python_errors.
  destruct (document w !! node) as [el|];
    [|intros [= <-]; rewrite !elem_of_cons; tauto].
  destruct (attributes el !! "classes") as [[]|]; try done;
    intros [= <-]; rewrite !elem_of_cons; tauto.
Qed.

Lemma node_get_raise r key w e :
  node_get r key w = Raise e → e ∈ python_errors.
Proof.
  unfold node_get, python_errors. destruct (deref r w); [done|].
  intros [= <-]. rewrite !elem_of_cons. tauto.
Qed.

Lemma node_contains_raise node key w e :
  node_contains node key w = Raise e → e ∈ python_errors.
Proof.
  unfold node_contains, python_errors. destruct (document w !! node); [done|].
  intros [= <-]. rewrite !elem_of_cons. tauto.
Qed.

Lemma node_parent_raise r w e :
  node_parent r w = Raise e → e ∈ python_errors.
Proof.
  unfold node_parent, python_errors. destruct (deref r w); [done|].
  intros [= <-]. rewrite !elem_of_cons. tauto.
Qed.

Lemma body_last_raise w e : body_last w = Raise e → e ∈ python_errors.
Proof.
  unfold body_last, python_errors. destruct (last (body w)); [done|].
  intros [= <-]. rewrite !elem_of_cons. tauto.
Qed.

Lemma body_set_last_raise x w e :
  body_set_last x w = Raise e → e ∈ python_errors.
Proof.
  unfold body_set_last, python_errors. destruct (body w); [|done].
  intros [= <-]. rewrite !elem_of_cons. tauto.
Qed.

Lemma unpack2_raise v w e : unpack2 v w = Raise e → e ∈ python_errors.
Proof.
  unfold python_errors.
  destruct v as [| |s|l|l]; simpl.
  - intros [= <-]. rewrite !elem_of_cons. tauto.
  - intros [= <-]. rewrite !elem_of_cons. tauto.
  - destruct s as [|a [|b [|c s]]]; try done;
      intros [= <-]; rewrite !elem_of_cons; tauto.
  - destruct l as [|a [|b [|c l]]]; try done;
      intros [= <-]; rewrite !elem_of_cons; tauto.
  - destruct l as [|a [|b [|c l]]]; try done;
      intros [= <-]; rewrite !elem_of_cons; tauto.
Qed.
End OwnErrors.

Ltac raise_step :=
  match goal with
  | u : unit |- _ => destruct u
  | Hrun : bind _ _ _ = Raise _ |- _ =>
      apply bind_raise_inv in Hrun as [Hrun | (? & ? & ? & Hrun)]
  | Hrun : (if ?b then _ else _) _ = Raise _ |- _ => destruct b eqn:?
  | Hrun : (let (_, _) := ?x in _) _ = Raise _ |- _ => destruct x
  | Hrun : ret _ _ = Raise _ |- _ => discriminate Hrun
  | Hrun : body_append _ _ = Raise _ |- _ => discriminate Hrun
  | Hrun : isinstance _ _ _ = Raise _ |- _ => discriminate Hrun
  | Hrun : node_get_default _ _ _ _ = Raise _ |- _ =>
      unfold node_get_default in Hrun
  | Hrun : parent_is_literal_block _ _ = Raise _ |- _ =>
      unfold parent_is_literal_block in Hrun
  | Hrun : caption_open _ _ = Raise _ |- _ => unfold caption_open in Hrun
  | Hrun : caption_close_span _ _ = Raise _ |- _ =>
      unfold caption_close_span in Hrun
  | Hrun : caption_permalink _ _ = Raise _ |- _ =>
      unfold caption_permalink in Hrun
  | Hrun : caption_close _ _ = Raise _ |- _ => unfold caption_close in Hrun
  end.

Ltac own_error :=
  right;
  match goal with
  | Hrun : classes_append _ _ _ = Raise _ |- _ =>
      exact (classes_append_raise _ _ _ _ Hrun)
  | Hrun : node_get _ _ _ = Raise _ |- _ => exact (node_get_raise _ _ _ _ Hrun)
  | Hrun : node_contains _ _ _ = Raise _ |- _ =>
      exact (node_contains_raise _ _ _ _ Hrun)
  | Hrun : node_parent _ _ = Raise _ |- _ => exact (node_parent_raise _ _ _ Hrun)
  | Hrun : body_last _ = Raise _ |- _ => exact (body_last_raise _ _ Hrun)
  | Hrun : body_set_last _ _ = Raise _ |- _ =>
      exact (body_set_last_raise _ _ _ Hrun)
  | Hrun : unpack2 _ _ = Raise _ |- _ => exact (unpack2_raise _ _ _ Hrun)
  end.

Ltac premise :=
  first [ eassumption
        | erewrite bind_ok by eassumption; premise ].

Ltac host_error :=
  left; eexists _, _, _; split; [|eassumption];
  econstructor; premise.

(** X15: every error a hook raises is either the error of a host call the
    hook has reached, or one of the Python errors of the hook's own
    operations: [KeyError("classes")], [IndexError], [ValueError],
    [TypeError] or [AttributeError]. *)
Theorem hook_errors_origin {H} `{!HTML5Translator H}
    (node : node_id) (hook : M H unit) (w : state H) (e : exn) :
  hook ∈ all_hooks node →
  hook w = Raise e →
  (∃ A (call : M H A) w1, delegates hook w A call w1 ∧ call w1 = Raise e)
  ∨ e ∈ python_errors.
Proof.
  unfold all_hooks, appending_hooks, parameterlist_hooks. simpl.
  rewrite !elem_of_cons, elem_of_nil.
  intros Hin Hrun. destruct_or! Hin; try done; subst hook.
  all: unfold visit_desc, visit_desc_type, depart_desc_type,
         visit_desc_signature, visit_desc_parameter, depart_desc_parameter,
         depart_field_name, depart_term, visit_caption, depart_caption,
         visit_desc_parameterlist, depart_desc_parameterlist in Hrun.
  all: repeat raise_step.
  all: first [ own_error | host_error ].
Qed.

Lemma hook_errors_origin_witness :
  visit_desc_parameterlist 2 MoreExamples.triple_parens_state
  = Raise ValueError
  ∧ ((∃ A (call : M unit A) w1,
        delegates (visit_desc_parameterlist 2)
          MoreExamples.triple_parens_state A call w1
        ∧ call w1 = Raise ValueError)
     ∨ ValueError ∈ python_errors).
Proof.
  split; [reflexivity|].
  apply (hook_errors_origin 2 (visit_desc_parameterlist 2)
           MoreExamples.triple_parens_state ValueError); [|reflexivity].
  unfold all_hooks. apply elem_of_app. right. simpl. apply list_elem_of_here.
Defined.

(** X16: [visit_desc_type], [depart_desc_type], [visit_desc_parameter],
    [depart_desc_parameter] and [depart_field_name] have no error of their
    own: whenever one of them raises, a host call it has reached raised that
    error; [depart_desc_type], which calls nothing, never raises. *)
Theorem wrappers_raise_only_host_errors {H} `{!HTML5Translator H}
    (node : node_id) (hook : M H unit) (w : state H) (e : exn) :
  depart_desc_type node w ≠ Raise e
  ∧ (hook ∈ [ visit_desc_type node; depart_desc_type node;
              visit_desc_parameter node; depart_desc_parameter node;
              depart_field_name node ] →
     hook w = Raise e →
     ∃ A (call : M H A) w1, delegates hook w A call w1 ∧ call w1 = Raise e).
Proof.
  split; [done|].
  rewrite !elem_of_cons, elem_of_nil.
  intros Hin Hrun. destruct_or! Hin; try done; subst hook.
  all: unfold visit_desc_type, depart_desc_type, visit_desc_parameter,
         depart_desc_parameter, depart_field_name in Hrun.
  all: repeat raise_step.
  all: eexists _, _, _; (split; [|eassumption]); econstructor; premise.
Qed.

Lemma wrappers_raise_only_host_errors_witness :
  depart_field_name 0 CaptionExamples.field_state_without_ids = Raise (KeyError "ids")
  ∧ ∃ A (call : M unit A) w1,
      delegates (depart_field_name 0) CaptionExamples.field_state_without_ids
        A call w1
      ∧ call w1 = Raise (KeyError "ids").
Proof.
  assert (depart_field_name 0 CaptionExamples.field_state_without_ids
          = Raise (KeyError "ids")) as Hrun by reflexivity.
  split; [exact Hrun|].
  destruct (wrappers_raise_only_host_errors 0 (depart_field_name 0)
              CaptionExamples.field_state_without_ids (KeyError "ids")) as [_ Hhost].
  apply Hhost; [rewrite !elem_of_cons; tauto|exact Hrun].
Defined.
